(** * BrainWave: the estimator, the smoother and the polling session of
      [src/necessary/App.tsx] (component [SimpleBrain])

    JavaScript numbers are modelled as exact rationals ([Q]); the two values
    a division can add to them (an infinity, NaN) are made explicit in
    [JS.number].  Integer-valued numbers (vote counters, the error counter,
    millisecond timestamps) are [Z].  React state is passed explicitly: every
    callback of the component is a function from the state it closes over to
    the state after its [set...] calls. *)

From Stdlib Require Import ZArith QArith Qabs Qround Lqa Lia List Bool Ascii String.
From Stdlib Require Import DecimalString.
Import ListNotations.

(* ================================================================== *)
(** * Part I: the program *)
(* ================================================================== *)

(** ** JavaScript arithmetic used by the component *)

Module JS.

(** A number that may come out of a division or of a read past the end of
    a typed array. *)
Inductive number : Type :=
| Fin (q : Q)
| PosInf
| NegInf
| NaN.

(** [x > y] on finite numbers. *)
Definition gt (x y : Q) : bool := negb (Qle_bool x y).

Definition Math_max (a b : Q) : Q := if Qle_bool a b then b else a.
Definition Math_min (a b : Q) : Q := if Qle_bool a b then a else b.
Definition Math_abs (a : Q) : Q := Qabs a.

(** [a / b]: a zero divisor gives an infinity of the sign of [a], and
    [0 / 0] is NaN. *)
Definition div (a b : Q) : number :=
  if Qeq_bool b 0 then
    if Qeq_bool a 0 then NaN
    else if Qle_bool 0 a then PosInf else NegInf
  else Fin (a / b).

(** [x > c] where [x] may be infinite or NaN (every comparison with NaN
    is false). *)
Definition number_gt (x : number) (c : Q) : bool :=
  match x with
  | Fin q => gt q c
  | PosInf => true
  | NegInf => false
  | NaN => false
  end.

Definition add (x : number) (q : Q) : number :=
  match x with
  | Fin s => Fin (s + q)
  | other => other
  end.

End JS.

(** ** Shared data *)

(** ['left' | 'right' | 'center'], the type of the [eyePosition] state. *)
Inductive EyePosition : Type := EyeLeft | EyeRight | EyeCenter.

(** The [brainData] object ([/api/data] shape). *)
Record BrainData : Type := mkBrainData {
  left : Q;
  right : Q;
  state : string;
  blink : bool;
  eye_position : string
}.

(** ** Frame sampler: [calculateBrightness] *)

Module Sampler.

(** [data[i]]: [None] is JavaScript's [undefined]. *)
Definition get (data : list Z) (i : nat) : option Z := nth_error data i.

(** [r * 0.299 + g * 0.587 + b * 0.114] *)
Definition luma (r g b : Z) : Q :=
  (inject_Z r * 0.299 + inject_Z g * 0.587 + inject_Z b * 0.114)%Q.

(** The body of the [for (let i = 0; i < data.length; i += 16)] loop,
    iterated; [fuel] bounds the number of iterations.  A channel read past
    the end is [undefined] and turns the sum into NaN. *)
Fixpoint loop (fuel : nat) (data : list Z) (i : nat)
         (sum : JS.number) (count : Z) : JS.number * Z :=
  match fuel with
  | O => (sum, count)
  | S fuel' =>
      if (i <? List.length data)%nat then
        let sum' :=
          match get data i, get data (i + 1), get data (i + 2) with
          | Some r, Some g, Some b => JS.add sum (luma r g b)
          | _, _, _ => JS.NaN
          end in
        loop fuel' data (i + 16) sum' (count + 1)
      else (sum, count)
  end.

(** [return count > 0 ? sum / count : 0]; the loop runs at most
    [data.length] times. *)
Definition calculateBrightness (data : list Z) : JS.number :=
  let '(sum, count) := loop (List.length data) data 0 (JS.Fin 0) 0 in
  if (0 <? count)%Z then
    match sum with
    | JS.Fin s => JS.Fin (s / inject_Z count)
    | other => other
    end
  else JS.Fin 0.

(** *** The sampler as the specification words it *)

Record Pixel : Type := mkPixel { R : Z; G : Z; B : Z; A : Z }.

(** The RGBA buffer of a list of pixels. *)
Fixpoint buffer (ps : list Pixel) : list Z :=
  match ps with
  | [] => []
  | p :: ps' => R p :: G p :: B p :: A p :: buffer ps'
  end.

(** Every 4th pixel, starting with the first. *)
Fixpoint every4th (ps : list Pixel) : list Pixel :=
  match ps with
  | [] => []
  | p :: rest =>
      p :: match rest with
           | _ :: _ :: _ :: rest' => every4th rest'
           | _ => []
           end
  end.

Definition pixel_luma (p : Pixel) : Q := luma (R p) (G p) (B p).

Definition Qsum (l : list Q) : Q := fold_right Qplus 0%Q l.

(** Arithmetic mean, 0 for the empty list. *)
Definition mean (l : list Q) : Q :=
  match l with
  | [] => 0%Q
  | _ => (Qsum l / inject_Z (Z.of_nat (List.length l)))%Q
  end.

Definition spec_brightness (ps : list Pixel) : Q :=
  mean (map pixel_luma (every4th ps)).

Definition byte_range (z : Z) : Prop := (0 <= z <= 255)%Z.

Definition pixel_ok (p : Pixel) : Prop :=
  byte_range (R p) /\ byte_range (G p) /\ byte_range (B p) /\ byte_range (A p).

End Sampler.

(** ** Direction/blink estimator: the closure of [startEyeTracking] *)

Module Estimator.

(** [eyePositionCounter], an object with three integer fields. *)
Record Counter : Type := mkCounter { left : Z; right : Z; center : Z }.

(** The three region brightnesses of one sampled frame
    ([leftBrightness], [centerBrightness], [rightBrightness]). *)
Record Sample : Type := mkSample {
  leftBrightness : Q;
  centerBrightness : Q;
  rightBrightness : Q
}.

(** The [let] variables of [startEyeTracking], shared by all calls of
    [processFrame]. *)
Record Locals : Type := mkLocals {
  eyePositionCounter : Counter;
  frameSkipCounter : Z;
  prevTotalBrightness : Q
}.

(** The React state the estimator writes, with the pending
    [setTimeout(() => setBlinkDetected(false), 300)] callbacks, each
    recorded by the time at which it is due. *)
Record View : Type := mkView {
  eyePosition : EyePosition;
  blinkDetected : bool;
  timeouts : list Z
}.

Definition State : Type := (Locals * View)%type.

(** [{ left: 0, right: 0, center: 5 }], skip counter 0, previous total 0;
    the component starts with [eyePosition = 'center'] and no blink.  This
    is the first start of the camera after the component mounted; a start
    with any other React state is [startEyeTracking] below. *)
Definition initial : State :=
  (mkLocals (mkCounter 0 0 5) 0 0%Q, mkView EyeCenter false []).

(** The three-way test on the brightnesses. *)
Definition looksLeft (b : Sample) : bool :=
  let leftRatio := JS.div (leftBrightness b) (centerBrightness b * 0.8)%Q in
  JS.number_gt leftRatio 1.1
  && JS.gt (leftBrightness b) (rightBrightness b * 1.1)%Q.

Definition looksRight (b : Sample) : bool :=
  let rightRatio := JS.div (rightBrightness b) (centerBrightness b * 0.8)%Q in
  JS.number_gt rightRatio 1.1
  && JS.gt (rightBrightness b) (leftBrightness b * 1.1)%Q.

(** [newPosition] *)
Definition newPosition (b : Sample) : EyePosition :=
  if looksLeft b then EyeLeft
  else if looksRight b then EyeRight
  else EyeCenter.

(** The vote: one counter up, the two others down with floor 0. *)
Definition vote (p : EyePosition) (c : Counter) : Counter :=
  match p with
  | EyeLeft =>
      mkCounter (left c + 1) (Z.max 0 (right c - 1)) (Z.max 0 (center c - 1))
  | EyeRight =>
      mkCounter (Z.max 0 (left c - 1)) (right c + 1) (Z.max 0 (center c - 1))
  | EyeCenter =>
      mkCounter (Z.max 0 (left c - 1)) (Z.max 0 (right c - 1)) (center c + 1)
  end.

Definition maxCount (c : Counter) : Z :=
  Z.max (Z.max (left c) (center c)) (right c).

(** [maxCount === left ? 'left' : maxCount === right ? 'right' : 'center'] *)
Definition currentPosition (c : Counter) : EyePosition :=
  if (maxCount c =? left c)%Z then EyeLeft
  else if (maxCount c =? right c)%Z then EyeRight
  else EyeCenter.

(** [eyePositionCounter = {left: 0, right: 0, center: 0};
     eyePositionCounter[currentPosition] = 2] *)
Definition resetCounter (p : EyePosition) : Counter :=
  match p with
  | EyeLeft => mkCounter 2 0 0
  | EyeRight => mkCounter 0 2 0
  | EyeCenter => mkCounter 0 0 2
  end.

(** [if (maxCount > 5) { setEyePosition(...); reset }]: the counters and
    the committed direction after the threshold test. *)
Definition commit (c : Counter) (dir : EyePosition) : Counter * EyePosition :=
  if (5 <? maxCount c)%Z
  then (resetCounter (currentPosition c), currentPosition c)
  else (c, dir).

Definition totalBrightness (b : Sample) : Q :=
  (leftBrightness b + centerBrightness b + rightBrightness b)%Q.

(** [brightnessDiff > 15] *)
Definition blinkCrossing (b : Sample) (prev : Q) : bool :=
  JS.gt (JS.Math_abs (totalBrightness b - prev)) 15.

(** The body of [processFrame] once a frame was sampled at time [now]:
    blink test, vote, threshold test. *)
Definition estimate (now : Z) (b : Sample) (st : State) : State :=
  let '(loc, v) := st in
  let v1 :=
    if blinkCrossing b (prevTotalBrightness loc)
    then mkView (eyePosition v) true (timeouts v ++ [(now + 300)%Z])
    else v in
  let voted := vote (newPosition b) (eyePositionCounter loc) in
  let '(c', dir') := commit voted (eyePosition v1) in
  (mkLocals c' (frameSkipCounter loc) (totalBrightness b),
   mkView dir' (blinkDetected v1) (timeouts v1)).

(** [processFrame]: only every 3rd call looks at the video, and only when
    a frame could be sampled ([frame = None]: the video is paused or ended,
    no 2d context, or the sampling threw). *)
Definition processFrame (now : Z) (frame : option Sample) (st : State) : State :=
  let '(loc, v) := st in
  let skip := ((frameSkipCounter loc + 1) mod 3)%Z in
  let st' := (mkLocals (eyePositionCounter loc) skip (prevTotalBrightness loc), v) in
  if negb (skip =? 0)%Z then st'
  else match frame with
       | Some b => estimate now b st'
       | None => st'
       end.

(** The timer queue: every callback due at or before [now] runs and
    clears the blink flag. *)
Definition due (now t : Z) : bool := (t <=? now)%Z.

Definition fireTimeouts (now : Z) (st : State) : State :=
  let '(loc, v) := st in
  if existsb (due now) (timeouts v)
  then (loc, mkView (eyePosition v) false
                    (filter (fun t => negb (due now t)) (timeouts v)))
  else st.

(** A sampled frame arriving at time [now]: the timers that are due run
    first. *)
Definition onFrame (now : Z) (b : Sample) (st : State) : State :=
  estimate now b (fireTimeouts now st).

(** Sampled frames in order of arrival, each with its time. *)
Fixpoint run (frames : list (Z * Sample)) (st : State) : State :=
  match frames with
  | [] => st
  | (now, b) :: rest => run rest (onFrame now b st)
  end.

Definition direction (st : State) : EyePosition := eyePosition (snd st).
Definition counters (st : State) : Counter := eyePositionCounter (fst st).

Definition count (p : EyePosition) (c : Counter) : Z :=
  match p with
  | EyeLeft => left c
  | EyeRight => right c
  | EyeCenter => center c
  end.

Definition eqPosition (p q : EyePosition) : bool :=
  match p, q with
  | EyeLeft, EyeLeft | EyeRight, EyeRight | EyeCenter, EyeCenter => true
  | _, _ => false
  end.

(** The same sample arriving at each of the times [ts]. *)
Definition repeated (b : Sample) (ts : list Z) : list (Z * Sample) :=
  map (fun t => (t, b)) ts.

(** Every counter is between 0 and the threshold 5. *)
Definition within (c : Counter) : Prop :=
  (0 <= left c <= 5 /\ 0 <= right c <= 5 /\ 0 <= center c <= 5)%Z.

(** No direction other than the committed one has more than [k] votes. *)
Definition rivals_at_most (k : Z) (st : State) : Prop :=
  forall p : EyePosition,
    p <> direction st -> (count p (counters st) <= k)%Z.

End Estimator.

(** ** Activity smoother: [updateBrainValues] *)

Module Smoother.

(** [Math.random() * 0.03 - 0.015] for a draw [u] of [Math.random()]. *)
Definition jitter (u : Q) : Q := (u * 0.03 - 0.015)%Q.

(** [Math.max(0.1, Math.min(0.95, x))] *)
Definition clamp (x : Q) : Q := JS.Math_max 0.1 (JS.Math_min 0.95 x).

(** [newLeftValue] and [newRightValue] after the direction-dependent pull,
    before the random variation. *)
Definition pull (eyePosition : EyePosition) (brainData : BrainData) : Q * Q :=
  match eyePosition with
  | EyeLeft =>
      let newRightValue := (right brainData + (0.9 - right brainData) * 0.2)%Q in
      let newLeftValue := (left brainData - (left brainData - 0.2) * 0.2)%Q in
      (newLeftValue, newRightValue)
  | EyeRight =>
      let newLeftValue := (left brainData + (0.9 - left brainData) * 0.2)%Q in
      let newRightValue := (right brainData - (right brainData - 0.2) * 0.2)%Q in
      (newLeftValue, newRightValue)
  | EyeCenter =>
      let targetLeft := 0.6%Q in
      let targetRight := 0.65%Q in
      ((left brainData + (targetLeft - left brainData) * 0.1)%Q,
       (right brainData + (targetRight - right brainData) * 0.1)%Q)
  end.

(** The label written to [state]. *)
Definition label (newLeftValue newRightValue : Q) : string :=
  if JS.gt newLeftValue (newRightValue * 1.2)%Q then "analytical"%string
  else if JS.gt newRightValue (newLeftValue * 1.2)%Q then "creative"%string
  else "balanced"%string.

(** The two clamped candidates of one tick; [u1] and [u2] are the two
    draws of [Math.random()]. *)
Definition candidates (eyePosition : EyePosition) (u1 u2 : Q)
           (brainData : BrainData) : Q * Q :=
  let '(l, r) := pull eyePosition brainData in
  (clamp (l + jitter u1)%Q, clamp (r + jitter u2)%Q).

(** [if (Math.abs(newLeftValue - brainData.left) > 0.001 ||
         Math.abs(newRightValue - brainData.right) > 0.001)] *)
Definition realChange (newLeftValue newRightValue : Q) (brainData : BrainData) : bool :=
  JS.gt (JS.Math_abs (newLeftValue - left brainData)) 0.001
  || JS.gt (JS.Math_abs (newRightValue - right brainData)) 0.001.

(** [updateBrainValues]: [Some d] when [setBrainData(d)] is called, [None]
    when the tick calls no setter. *)
Definition updateBrainValues (eyePosition : EyePosition) (u1 u2 : Q)
           (brainData : BrainData) : option BrainData :=
  let '(newLeftValue, newRightValue) := candidates eyePosition u1 u2 brainData in
  if realChange newLeftValue newRightValue brainData
  then Some (mkBrainData newLeftValue newRightValue
                         (label newLeftValue newRightValue)
                         (blink brainData) (eye_position brainData))
  else None.

(** The [brainData] state after one tick of the 100ms interval. *)
Definition tick (eyePosition : EyePosition) (u1 u2 : Q)
           (brainData : BrainData) : BrainData :=
  match updateBrainValues eyePosition u1 u2 brainData with
  | Some d => d
  | None => brainData
  end.

(** One tick of the environment: the direction at that tick and the two
    random draws. *)
Definition Tick : Type := (EyePosition * Q * Q)%type.

Definition ticks (ts : list Tick) (brainData : BrainData) : BrainData :=
  fold_left (fun d '(p, u1, u2) => tick p u1 u2 d) ts brainData.

(** [getBrainSide]: [None] is [null]. *)
Definition getBrainSide (brainData : option BrainData) : option string :=
  match brainData with
  | None => None
  | Some d =>
      if JS.gt (left d) (right d + 0.1)%Q then Some "left"%string
      else if JS.gt (right d) (left d + 0.1)%Q then Some "right"%string
      else Some "balanced"%string
  end.

(** *** The tick as the specification words it *)

Definition spec_clamp (x : Q) : Q :=
  if Qlt_le_dec x 0.1 then 0.1%Q
  else if Qlt_le_dec 0.95 x then 0.95%Q
  else x.

Definition spec_pull (p : EyePosition) (l r : Q) : Q * Q :=
  match p with
  | EyeLeft => ((l - (l - 0.2) * 0.2)%Q, (r + (0.9 - r) * 0.2)%Q)
  | EyeRight => ((l + (0.9 - l) * 0.2)%Q, (r - (r - 0.2) * 0.2)%Q)
  | EyeCenter => ((l + (0.6 - l) * 0.1)%Q, (r + (0.65 - r) * 0.1)%Q)
  end.

Definition spec_label (l r : Q) : string :=
  if Qlt_le_dec (r * 1.2) l then "analytical"%string
  else if Qlt_le_dec (l * 1.2) r then "creative"%string
  else "balanced"%string.

Definition in_range (x : Q) : Prop := (0.1 <= x /\ x <= 0.95)%Q.

Definition in_range_data (d : BrainData) : Prop :=
  in_range (left d) /\ in_range (right d).

End Smoother.

(** ** Polling session: [fetchData] and [handleReset] *)

Module Session.

(** The state [fetchData] reads and writes. *)
Record State : Type := mkState {
  connected : bool;
  brainData : option BrainData;
  errorCount : Z;
  lastErrorTime : Z
}.

(** What [await fetch(...)] followed by [await response.json()] can do. *)
Inductive Reply (Body : Type) : Type :=
| Rejected                 (* [fetch] throws: the backend is unreachable *)
| NotOk                    (* a response with [response.ok] false *)
| BadJson                  (* [response.ok], but [response.json()] throws *)
| Json (body : Body).      (* [response.ok] and a parsed body *)
Arguments Rejected {Body}.
Arguments NotOk {Body}.
Arguments BadJson {Body}.
Arguments Json {Body} body.

(** A body of [/api/data]: the payload and whether [data.error] is
    truthy. *)
Record DataBody : Type := mkDataBody { payload : BrainData; error : bool }.

(** A body of [/api/mental_state]: [success] and the optional [data],
    already in the simplified shape [fetchData] converts it to. *)
Record MentalBody : Type := mkMentalBody {
  success : bool;
  data : option BrainData
}.

(** [handleReset]: the three requests either all resolve or one of them
    throws ([apiThrows]); the [try] and the [catch] branch then call the
    same three setters. *)
Definition handleReset (apiThrows : bool) (s : State) : State :=
  if apiThrows
  then mkState false None 0 (lastErrorTime s)
  else mkState false None 0 (lastErrorTime s).

(** [setBrainData(d); setErrorCount(0); return] *)
Definition adopt (d : BrainData) (s : State) : State :=
  mkState (connected s) (Some d) 0 (lastErrorTime s).

(** The [catch] block of [fetchData]:
    [setErrorCount((prev) => prev + 1)]. *)
Definition caught (s : State) : State :=
  mkState (connected s) (brainData s) (errorCount s + 1) (lastErrorTime s).

(** "If we get here, both endpoints failed": the rate-limited increment,
    then the threshold test on the [errorCount] the callback closed
    over. *)
Definition bothFailed (now : Z) (resetThrows : bool) (s : State) : State :=
  let s1 :=
    if (5000 <? now - lastErrorTime s)%Z
    then mkState (connected s) (brainData s) (errorCount s + 1) now
    else s in
  if (5 <? errorCount s)%Z then handleReset resetThrows s1 else s1.

(** The second request of [fetchData]. *)
Definition tryMentalState (now : Z) (secondary : Reply MentalBody)
           (resetThrows : bool) (s : State) : State :=
  match secondary with
  | Rejected => caught s
  | BadJson => caught s
  | NotOk => bothFailed now resetThrows s
  | Json ms =>
      match success ms, data ms with
      | true, Some d => adopt d s
      | _, _ => bothFailed now resetThrows s
      end
  end.

(** [fetchData], called at time [now = Date.now()]. *)
Definition fetchData (now : Z) (primary : Reply DataBody)
           (secondary : Reply MentalBody) (resetThrows : bool)
           (s : State) : State :=
  match primary with
  | Rejected => caught s
  | BadJson => caught s
  | NotOk => tryMentalState now secondary resetThrows s
  | Json d =>
      if negb (error d) then adopt (payload d) s
      else tryMentalState now secondary resetThrows s
  end.

(** One firing of the 200ms interval: what the network does at that
    firing. *)
Record Poll : Type := mkPoll {
  at_time : Z;
  primary_reply : Reply DataBody;
  secondary_reply : Reply MentalBody;
  reset_throws : bool
}.

(** The polling effect runs only while [connected].  A poll is a call of
    [fetchData] that runs to its end, with its state updates rendered,
    before the next call starts, so that the [lastErrorTime] and
    [errorCount] its closure reads are those of the state it writes.
    Calls that overlap (a reply slower than the 200ms interval) are the
    subject of [bothFailedFrom]. *)
Definition poll (p : Poll) (s : State) : State :=
  if connected s
  then fetchData (at_time p) (primary_reply p) (secondary_reply p)
                 (reset_throws p) s
  else s.

Definition polls (ps : list Poll) (s : State) : State :=
  fold_left (fun s p => poll p s) ps s.

(** A poll that fails by throwing: the backend is unreachable. *)
Definition throwing (t : Z) : Poll := mkPoll t Rejected Rejected false.

(** A poll that fails with an error payload on both endpoints. *)
Definition failing (t : Z) : Poll := mkPoll t NotOk NotOk false.

(** Whether a reply makes [fetchData] jump to its [catch] block. *)
Definition rejects {Body : Type} (r : Reply Body) : bool :=
  match r with
  | Rejected | BadJson => true
  | NotOk | Json _ => false
  end.

(** Whether the poll ends in the [catch] block of [fetchData]. *)
Definition throws (p : Poll) : bool :=
  match primary_reply p with
  | Rejected | BadJson => true
  | NotOk => rejects (secondary_reply p)
  | Json d => if negb (error d) then false else rejects (secondary_reply p)
  end.

(** The state right after [handleConnect] succeeded:
    [setConnected(true); setErrorCount(0)]. *)
Definition justConnected : State := mkState true None 0 0.

End Session.

(** ** Polling session: the pace of the error counter *)

(** While polls do not throw and all fall inside one span of 25 seconds,
    a counter that started at 0 has had room for at most 5 rate-limited
    increments. *)
Definition paced (T : Z) (s : Session.State) : Prop :=
  Session.connected s = true /\
  (0 <= Session.errorCount s <= 5)%Z /\
  ((1 <= Session.errorCount s)%Z ->
   (T + 5000 * (Session.errorCount s - 1) <= Session.lastErrorTime s)%Z).

(** ** The history of the graph: the drawing effect of [SimpleBrain] *)

Module History.

(** [dataHistory], two series of numbers. *)
Record DataHistory : Type := mkDataHistory { left : list Q; right : list Q }.

(** [{ left: Array(50).fill(0.5), right: Array(50).fill(0.5) }] *)
Definition initial : DataHistory :=
  mkDataHistory (repeat 0.5%Q 50) (repeat 0.5%Q 50).

(** [arr.slice(1)] *)
Definition slice1 {A : Type} (arr : list A) : list A := tl arr.

(** [updatedHistory]: each series drops its first point and takes the new
    scalar at its end. *)
Definition updatedHistory (dataHistory : DataHistory) (brainData : BrainData)
  : DataHistory :=
  let '(mkBrainData newLeft newRight _ _ _) := brainData in
  mkDataHistory (slice1 (left dataHistory) ++ [newLeft])
                (slice1 (right dataHistory) ++ [newRight]).

(** One run of the effect: nothing happens without a canvas or without
    brain data. *)
Definition draw (canvas : bool) (brainData : option BrainData)
           (dataHistory : DataHistory) : DataHistory :=
  match canvas, brainData with
  | true, Some d => updatedHistory dataHistory d
  | _, _ => dataHistory
  end.

(** The effect runs once for every new [brainData] object. *)
Definition draws (ds : list BrainData) (dataHistory : DataHistory) : DataHistory :=
  fold_left (fun h d => draw true (Some d) h) ds dataHistory.

Definition lefts (ds : list BrainData) : list Q :=
  map (fun d => let '(mkBrainData l _ _ _ _) := d in l) ds.

Definition rights (ds : list BrainData) : list Q :=
  map (fun d => let '(mkBrainData _ r _ _ _) := d in r) ds.

End History.

(** ** The other callbacks of [SimpleBrain]: status check, connect button,
       eye-data poll *)

Module SimpleBrain.

(** The state these callbacks read and write; [alerts] records the calls
    of [alert], oldest first. *)
Record State : Type := mkState {
  session : Session.State;
  backendStatus : option bool;
  usingRealData : bool;
  eyePosition : EyePosition;
  blinkDetected : bool;
  alertness : string;
  alerts : list string
}.

(** [useState] initial values. *)
Definition initial : State :=
  mkState (Session.mkState false None 0 0) None false EyeCenter false
          "awake" [].

Definition withSession (s : State) (x : Session.State) : State :=
  mkState x (backendStatus s) (usingRealData s) (eyePosition s)
          (blinkDetected s) (alertness s) (alerts s).

Definition setConnected (c : bool) (x : Session.State) : Session.State :=
  Session.mkState c (Session.brainData x) (Session.errorCount x)
                  (Session.lastErrorTime x).

(** *** [checkBackend] *)

(** The body of [/api/status] as the callback reads it: the truthiness of
    [data.using_real_data] and of [data.connected]. *)
Record StatusBody : Type := mkStatusBody {
  using_real_data : bool;
  connected : bool
}.

(** [fetch] rejects, or a response arrives whose [json()] either throws
    ([None]) or gives a body; [json()] is awaited whatever [response.ok]
    is. *)
Inductive StatusReply : Type :=
| StatusRejected
| StatusResponse (ok : bool) (body : option StatusBody).

Definition checkBackend (r : StatusReply) (s : State) : State :=
  match r with
  | StatusResponse ok (Some data) =>
      let x := session s in
      let x' :=
        if connected data && negb (Session.connected x)
        then setConnected true x else x in
      mkState x' (Some ok) (using_real_data data || false) (eyePosition s)
              (blinkDetected s) (alertness s) (alerts s)
  | StatusResponse _ None | StatusRejected =>
      mkState (session s) (Some false) (usingRealData s) (eyePosition s)
              (blinkDetected s) (alertness s) (alerts s)
  end.

(** *** [handleConnect] *)

(** What [POST /api/connect] can do: [fetch] rejects; the response is ok;
    or it is not ok and [json()] throws ([Refused None]) or gives a body
    whose [error] field is missing ([Refused (Some None)]) or a string. *)
Inductive ConnectReply : Type :=
| ConnectRejected
| ConnectOk
| Refused (body : option (option string)).

(** [data.error || 'Unknown error'] *)
Definition errorText (error : option string) : string :=
  match error with
  | None => "Unknown error"
  | Some e => if String.eqb e "" then "Unknown error" else e
  end.

Definition alert (msg : string) (s : State) : State :=
  mkState (session s) (backendStatus s) (usingRealData s) (eyePosition s)
          (blinkDetected s) (alertness s) (alerts s ++ [msg]).

(** The branch taken when the callback closed over [connected = true]:
    the [try] and the [catch] call the same two setters. *)
Definition disconnect (requestThrows : bool) (s : State) : State :=
  let x := session s in
  let x' := Session.mkState false None (Session.errorCount x)
                            (Session.lastErrorTime x) in
  if requestThrows then withSession s x' else withSession s x'.

(** The branch taken when the callback closed over [connected = false].
    The second component tells whether [setTimeout(handleConnect, 1000)]
    was called. *)
Definition connect (r : ConnectReply) (resetThrows : bool) (s : State)
  : State * bool :=
  match r with
  | ConnectOk =>
      let x := session s in
      (withSession s (Session.mkState true (Session.brainData x) 0
                                      (Session.lastErrorTime x)), false)
  | Refused (Some error) =>
      match error with
      | Some "already_connected"%string =>
          (withSession s (Session.handleReset resetThrows (session s)), true)
      | _ => (alert ("Failed to connect: " ++ errorText error) s, false)
      end
  | Refused None | ConnectRejected =>
      (alert "Connection error. Please make sure the backend is running." s,
       false)
  end.

(** One click on the connect button. *)
Definition handleConnect (r : ConnectReply) (requestThrows resetThrows : bool)
           (s : State) : State * bool :=
  if Session.connected (session s)
  then (disconnect requestThrows s, false)
  else connect r resetThrows s.

(** The retries of one click made while disconnected: the timeout calls
    the same [handleConnect] closure again, which closed over
    [connected = false] and so takes the connect branch whatever the state
    is by then.  [replies] are the answers of the backend to the successive
    requests; the result also lists the times of the requests made. *)
Fixpoint connectAttempts (now : Z) (replies : list (ConnectReply * bool))
         (s : State) : State * list Z :=
  match replies with
  | [] => (s, [])
  | (r, resetThrows) :: rest =>
      let '(s', retry) := connect r resetThrows s in
      if retry
      then let '(s'', times) := connectAttempts (now + 1000) rest s' in
           (s'', now :: times)
      else (s', [now])
  end.

(** *** [fetchEyeData] and [fetchBothData] *)

(** [data.data] of [/api/eye_data]; [alertness = None] when the field is
    missing or empty. *)
Record EyeData : Type := mkEyeData {
  eye_position : EyePosition;
  blink : bool;
  eye_alertness : option string
}.

Record EyeBody : Type := mkEyeBody {
  success : bool;
  data : option EyeData
}.

(** [fetchEyeData]; [closedOver] is the [connected] of the render that
    created the callback. *)
Definition fetchEyeData (closedOver : bool) (r : Session.Reply EyeBody)
           (s : State) : State :=
  if negb closedOver then s
  else match r with
       | Session.Json body =>
           match success body, data body with
           | true, Some d =>
               mkState (session s) (backendStatus s) (usingRealData s)
                       (eye_position d) (blink d)
                       (match eye_alertness d with
                        | Some a => if String.eqb a "" then "awake" else a
                        | None => "awake"
                        end)
                       (alerts s)
           | _, _ => s
           end
       | _ => s
       end.

(** [fetchBothData]: [await fetchData(); await fetchEyeData();], both
    closures of the same render of a connected component. *)
Definition fetchBothData (p : Session.Poll) (eye : Session.Reply EyeBody)
           (s : State) : State :=
  if Session.connected (session s)
  then fetchEyeData true eye (withSession s (Session.poll p (session s)))
  else s.

(** A sequence of status checks. *)
Definition statusChecks (rs : list StatusReply) (s : State) : State :=
  fold_left (fun s r => checkBackend r s) rs s.

(** The backend answers 'already_connected' and the reset goes through. *)
Definition alreadyConnected : ConnectReply * bool :=
  (Refused (Some (Some "already_connected"%string)), false).

End SimpleBrain.

(** ** The camera effect of [SimpleBrain]

    The effect has the dependency list [[webcamActive]]: it runs after the
    first render and after every render in which [webcamActive] changed,
    each run preceded by the cleanup that the previous run returned.  A
    cleanup sees the [videoStream] of the render that created it. *)

Module Camera.

(** A [MediaStream], by identity. *)
Definition Stream : Type := nat.

Record State : Type := mkState {
  webcamActive : bool;
  videoStream : option Stream;
  (** the [videoStream] closed over by the cleanup now registered *)
  closedOver : option Stream;
  (** calls of [getUserMedia] not yet settled *)
  requests : nat;
  (** streams with a track that was not stopped *)
  live : list Stream
}.

(** [stream.getTracks().forEach((track) => track.stop())] *)
Definition stopTracks (st : Stream) (l : list Stream) : list Stream :=
  filter (fun x => negb (Nat.eqb x st)) l.

(** The cleanup: [if (videoStream) { ...stop... }] on the stream it closed
    over. *)
Definition cleanup (s : State) : list Stream :=
  match closedOver s with
  | Some st => stopTracks st (live s)
  | None => live s
  end.

(** One run of the effect: the previous cleanup, then the body, which
    registers a cleanup closing over the current [videoStream]. *)
Definition effect (s : State) : State :=
  let live1 := cleanup s in
  match webcamActive s, videoStream s with
  | true, None =>
      mkState true None (videoStream s) (S (requests s)) live1
  | false, Some st =>
      mkState false None (videoStream s) (requests s) (stopTracks st live1)
  | active, held =>
      mkState active held (videoStream s) (requests s) live1
  end.

(** The state after the first render: the effect has run once and found
    nothing to do. *)
Definition mounted : State := mkState false None None 0 [].

Inductive Event : Type :=
| Toggle                 (* [setWebcamActive(!webcamActive)] *)
| Granted (st : Stream)  (* [getUserMedia] resolves with a new stream *)
| Denied                 (* [getUserMedia] rejects *)
| Unmount.               (* the component is torn down *)

Definition step (e : Event) (s : State) : State :=
  match e with
  | Toggle =>
      effect (mkState (negb (webcamActive s)) (videoStream s) (closedOver s)
                      (requests s) (live s))
  | Granted st =>
      (* [setVideoStream(stream)]: no dependency of the effect changes *)
      mkState (webcamActive s) (Some st) (closedOver s)
              (Nat.pred (requests s)) (st :: live s)
  | Denied =>
      (* [setWebcamActive(false)]: the effect runs only if that is a change *)
      let s' := mkState false (videoStream s) (closedOver s)
                        (Nat.pred (requests s)) (live s) in
      if webcamActive s then effect s' else s'
  | Unmount =>
      mkState (webcamActive s) (videoStream s) None (requests s) (cleanup s)
  end.

Definition steps (es : list Event) (s : State) : State :=
  fold_left (fun s e => step e s) es s.

(** The stream [st] is not what a later event can stop: it is neither held
    in [videoStream] nor closed over by the registered cleanup. *)
Definition orphaned (st : Stream) (s : State) : Prop :=
  In st (live s) /\ videoStream s <> Some st /\ closedOver s <> Some st.

(** No event of [es] hands out the stream [st] again. *)
Definition fresh (st : Stream) (es : list Event) : Prop :=
  Forall (fun e => e <> Granted st) es.

End Camera.

(** ** [BlinkCounter] ([src/components/BlinkCounter.tsx]) *)

Module BlinkCounter.

Inductive DetectionMode : Type := simulation | webcam.

(** The two fields of [mentalState] the component reads. *)
Record MentalState : Type := mkMentalState { state : string; confidence : Q }.

Record Props : Type := mkProps {
  isConnected : bool;
  mentalState : option MentalState;
  detectionMode : DetectionMode
}.

(** The four [useState] cells, with the pending
    [setTimeout(() => setJustBlinked(false), 300)] callbacks by due time. *)
Record State : Type := mkState {
  totalBlinks : Z;
  leftBlinks : Z;
  rightBlinks : Z;
  justBlinked : bool;
  timeouts : list Z
}.

Definition initial : State := mkState 0 0 0 false [].

Definition isWebcam (m : DetectionMode) : bool :=
  match m with webcam => true | simulation => false end.

Section WithToLowerCase.

(** [String.prototype.toLowerCase] *)
Variable toLowerCase : string -> string.

(** [flashBlinkAnimation], called at time [now]. *)
Definition flashBlinkAnimation (now : Z) (s : State) : State :=
  mkState (totalBlinks s) (leftBlinks s) (rightBlinks s) true
          (timeouts s ++ [(now + 300)%Z]).

(** One run of the effect, at time [now], for the props of that render. *)
Definition effect (now : Z) (p : Props) (s : State) : State :=
  if negb (isConnected p) || negb (isWebcam (detectionMode p)) then s
  else match mentalState p with
       | None => s
       | Some m =>
           let state := toLowerCase (state m) in
           if JS.gt (confidence m) 0.6 then
             if String.eqb state "left" then
               flashBlinkAnimation now
                 (mkState (totalBlinks s + 1) (leftBlinks s)
                          (rightBlinks s + 1) (justBlinked s) (timeouts s))
             else if String.eqb state "right" then
               flashBlinkAnimation now
                 (mkState (totalBlinks s + 1) (leftBlinks s + 1)
                          (rightBlinks s) (justBlinked s) (timeouts s))
             else s
           else s
       end.

(** The effect runs once per change of its dependencies. *)
Definition effects (runs : list (Z * Props)) (s : State) : State :=
  fold_left (fun s r => effect (fst r) (snd r) s) runs s.

(** The run counts a blink whose lower-cased state is [side]. *)
Definition counts (side : string) (r : Z * Props) : bool :=
  isConnected (snd r) && isWebcam (detectionMode (snd r))
  && match mentalState (snd r) with
     | Some m => JS.gt (confidence m) 0.6
                 && String.eqb (toLowerCase (state m)) side
     | None => false
     end.

Definition tally (side : string) (runs : list (Z * Props)) : Z :=
  Z.of_nat (List.length (filter (counts side) runs)).

End WithToLowerCase.

End BlinkCounter.

(** ** The error log of [initDebugTools] ([src/utils/debug-helper.ts]) *)

Module ErrorLog.

(** An argument of [console.error]: an [Error] object or anything else,
    given by its [String(arg)]. *)
Inductive Arg : Type :=
| ErrorObject (name message stack : string)
| Other (text : string).

(** What the wrapper stores for an argument. *)
Inductive Item : Type :=
| ErrorItem (name message stack : string)
| TextItem (text : string).

Record Entry : Type := mkEntry { timestamp : string; error : list Item }.

(** The item [bw_error_log] of [localStorage], by what
    [JSON.parse(localStorage.getItem('bw_error_log') || '[]')] makes of
    it. *)
Inductive Storage : Type :=
| NoItem                      (* [getItem] returns null *)
| EmptyText                   (* the empty string, also falsy *)
| NotJson                     (* [JSON.parse] throws *)
| NotArray                    (* JSON, but no array: [push] is not a function *)
| Log (entries : list Entry). (* a JSON array of entries *)

Definition itemOf (arg : Arg) : Item :=
  match arg with
  | ErrorObject name message stack => ErrorItem name message stack
  | Other text => TextItem text
  end.

Definition entryOf (now : string) (args : list Arg) : Entry :=
  mkEntry now (map itemOf args).

(** [errorLog.push(e); if (errorLog.length > 50) errorLog.shift();] *)
Definition pushCapped (errorLog : list Entry) (e : Entry) : list Entry :=
  let pushed := errorLog ++ [e] in
  if (50 <? List.length pushed)%nat then tl pushed else pushed.

(** The storage after one call of the wrapped [console.error]; [now] is
    [new Date().toISOString()], and [setItemThrows] tells whether
    [localStorage.setItem] throws (storage full or disabled).  Whatever is
    thrown inside the [try] is ignored. *)
Definition logError (now : string) (args : list Arg) (setItemThrows : bool)
           (st : Storage) : Storage :=
  let write l := if setItemThrows then st else Log l in
  match st with
  | NoItem | EmptyText => write (pushCapped [] (entryOf now args))
  | NotJson | NotArray => st
  | Log errorLog => write (pushCapped errorLog (entryOf now args))
  end.

(** Calls in order, each with its time and arguments, none of which fails
    to write. *)
Definition logErrors (calls : list (string * list Arg)) (st : Storage) : Storage :=
  fold_left (fun st c => logError (fst c) (snd c) false st) calls st.

(** The result of [window.viewBrainwaveErrorLog()]. *)
Inductive View : Type :=
| Entries (l : list Entry)
| OtherValue                (* the parsed value, not an array *)
| ErrorReadingLog.          (* the string 'Error reading log' *)

Definition viewBrainwaveErrorLog (st : Storage) : View :=
  match st with
  | NoItem | EmptyText => Entries []
  | NotJson => ErrorReadingLog
  | NotArray => OtherValue
  | Log l => Entries l
  end.

(** The last [n] elements of a list. *)
Definition lastn {A : Type} (n : nat) (l : list A) : list A :=
  skipn (List.length l - n) l.

End ErrorLog.

(** ** JavaScript strings, arrays and mathematics used outside the
       estimator *)

Module JSLib.

(** [s.split(sep)] for a separator of one character. *)
Fixpoint split (sep : ascii) (s : string) : list string :=
  match s with
  | EmptyString => [EmptyString]
  | String c rest =>
      if Ascii.eqb c sep then EmptyString :: split sep rest
      else match split sep rest with
           | h :: t => String c h :: t
           | [] => [String c EmptyString]
           end
  end.

(** Whether the character occurs in the string. *)
Fixpoint contains (c : ascii) (s : string) : bool :=
  match s with
  | EmptyString => false
  | String x rest => Ascii.eqb x c || contains c rest
  end.

(** The number of occurrences of the character. *)
Fixpoint occurrences (c : ascii) (s : string) : nat :=
  match s with
  | EmptyString => 0
  | String x rest => (if Ascii.eqb x c then 1 else 0) + occurrences c rest
  end.

(** [i.toString()] for an array index. *)
Definition toString (i : nat) : string :=
  NilZero.string_of_uint (Nat.to_uint i).

(** [arr.slice(start)]: a negative [start] counts from the end. *)
Definition slice {A : Type} (start : Z) (arr : list A) : list A :=
  let len := Z.of_nat (List.length arr) in
  let from := if (start <? 0)%Z then Z.max (len + start) 0
              else Z.min start len in
  skipn (Z.to_nat from) arr.

(** [arr.map((x, index) => f(x, index))] *)
Definition mapi {A B : Type} (f : A -> nat -> B) (arr : list A) : list B :=
  map (fun p => f (snd p) (fst p)) (combine (seq 0 (List.length arr)) arr).

(** What a draw of [Math.random()] satisfies. *)
Definition unit_draw (u : Q) : Prop := (0 <= u /\ u < 1)%Q.

(** What the values of [Math.sin] satisfy. *)
Definition sin_ok (sin : Q -> Q) : Prop :=
  forall x : Q, (- 1 <= sin x /\ sin x <= 1)%Q.

End JSLib.

(** ** [EEGVisualizer] ([src/components/EEGVisualizer.tsx]) *)

Module EEGVisualizer.

Record EEGChannel : Type := mkChannel { name : string; data : list Q }.

(** One dataset of the chart; [hue] is the number printed into
    [borderColor] and [backgroundColor]. *)
Record Dataset : Type := mkDataset {
  label : string;
  points : list Q;
  hue : Q
}.

Record Chart : Type := mkChart { labels : list string; datasets : list Dataset }.

(** [(index * 360) / channels.length] *)
Definition hueOf (index count : nat) : Q :=
  (inject_Z (Z.of_nat index * 360) / inject_Z (Z.of_nat count))%Q.

(** [Array.from({ length: windowSize }, (_, i) => i.toString())] *)
Definition labelsOf (windowSize : Z) : list string :=
  map JSLib.toString (seq 0 (Z.to_nat windowSize)).

Definition datasetsOf (channels : list EEGChannel) (windowSize : Z) : list Dataset :=
  JSLib.mapi
    (fun channel index =>
       mkDataset (name channel)
                 (JSLib.slice (- windowSize) (data channel))
                 (hueOf index (List.length channels)))
    channels.

(** What the component hands to the chart; [None] is the 'No EEG channels
    available' placeholder, shown for a missing or empty [channels]. *)
Definition render (channels : option (list EEGChannel)) (windowSize : Z)
  : option Chart :=
  match channels with
  | None | Some [] => None
  | Some cs => Some (mkChart (labelsOf windowSize) (datasetsOf cs windowSize))
  end.

End EEGVisualizer.

(** ** The timestamp of [logWithTimestamp] ([src/utils/debug-helper.ts]) *)

Module DebugHelper.

(** [iso.split('T')[1].split('.')[0]]; [None] when there is no element 1,
    where the source throws a [TypeError]. *)
Definition timestampOf (iso : string) : option string :=
  match nth_error (JSLib.split "T" iso) 1 with
  | Some time => Some (hd EmptyString (JSLib.split "." time))
  | None => None
  end.

End DebugHelper.

(** ** The frontend simulator [EEGSimulator] (a file of [src/unnamed]) *)

Module EEGSimulator.

Definition CHANNELS : list string := ["AF3"; "AF4"; "T7"; "T8"; "PO3"; "PO4"]%string.

Definition MENTAL_STATES : list string :=
  ["Focused"; "Relaxed"; "Distracted"; "Neutral"]%string.

(** The private fields; [stateInterval] is never assigned. *)
Record State : Type := mkState {
  connected : bool;
  channels : list string;
  currentState : string;
  stateTimer : Z
}.

Definition stateInterval : Z := 5000.

Definition initial : State := mkState false CHANNELS "Neutral" 0.

Definition connect (s : State) : State :=
  mkState true (channels s) (currentState s) (stateTimer s).

Definition disconnect (s : State) : State :=
  mkState false (channels s) (currentState s) (stateTimer s).

Definition isConnected (s : State) : bool := connected s.

(** What one call reads from the outside: [Date.now()], taken to give the
    same number throughout the call, and the draws of [Math.random()]:
    [pick] for the new mental state, [base i] and [extra i] for the value
    of channel [i], [conf] for the confidence. *)
Record Env : Type := mkEnv {
  now : Q;
  pick : Q;
  base : nat -> Q;
  extra : nat -> Q;
  conf : Q
}.

Record EEGData : Type := mkEEGData {
  timestamp : Q;
  values : list Q;
  labels : list string
}.

Record MentalState : Type := mkMentalState {
  state : string;
  confidence : Q;
  eegData : EEGData
}.

Section WithSin.

(** [Math.sin] *)
Variable sin : Q -> Q.

(** The value of one channel: the body of the [map] callback. *)
Definition channelValue (env : Env) (currentState channel : string)
           (index : nat) : Q :=
  let baseValue := (base env index * 10)%Q in
  if String.eqb currentState "Focused" then
    if String.eqb channel "AF3" || String.eqb channel "AF4"
    then (baseValue + (15 + sin (now env / 100) * 5))%Q
    else baseValue
  else if String.eqb currentState "Relaxed" then
    if String.eqb channel "PO3" || String.eqb channel "PO4"
    then (baseValue + (10 + sin (now env / 200) * 7))%Q
    else baseValue
  else if String.eqb currentState "Distracted" then
    (baseValue + extra env index * 15)%Q
  else
    (baseValue + sin (now env / 300 + inject_Z (Z.of_nat index)) * 3)%Q.

(** [MENTAL_STATES[Math.floor(Math.random() * MENTAL_STATES.length)]]; the
    index is inside the array for every draw in [0, 1). *)
Definition pickState (u : Q) : string :=
  nth (Z.to_nat (Qfloor (u * 4))) MENTAL_STATES "undefined"%string.

(** The timer update of [getEEGData]. *)
Definition advance (env : Env) (s : State) : State :=
  let timer := (stateTimer s + 100)%Z in
  if (stateInterval <=? timer)%Z
  then mkState (connected s) (channels s) (pickState (pick env)) 0
  else mkState (connected s) (channels s) (currentState s) timer.

(** [getEEGData]: [None] is [null]. *)
Definition getEEGData (env : Env) (s : State) : option EEGData * State :=
  if negb (connected s) then (None, s)
  else
    let s' := advance env s in
    (Some (mkEEGData (now env)
                     (JSLib.mapi
                        (fun channel index =>
                           channelValue env (currentState s') channel index)
                        (channels s'))
                     (channels s')),
     s').

(** [getMentalState] *)
Definition getMentalState (env : Env) (s : State) : option MentalState * State :=
  if negb (connected s) then (None, s)
  else match getEEGData env s with
       | (Some eegData, s') =>
           (Some (mkMentalState (currentState s')
                                (0.7 + conf env * 0.3)%Q eegData), s')
       | (None, s') => (None, s')
       end.

(** Successive calls of [getEEGData], results dropped. *)
Definition ticks (envs : list Env) (s : State) : State :=
  fold_left (fun s env => snd (getEEGData env s)) envs s.

End WithSin.

(** *** [loadCSV] *)

(** What the [FileReader] does: [onerror] fires, or [onload] fires with a
    result that may be missing. *)
Inductive FileRead : Type :=
| ReadError
| ReadResult (result : option string).

(** The object the promise resolves to: the message is given by the two
    numbers it prints. *)
Inductive LoadResult : Type :=
| Loaded (samples : Z) (channelCount : nat)   (* success: true *)
| ParseError                                  (* 'Error parsing CSV: ...' *)
| FileError.                                  (* 'Error reading file' *)

Section WithTrim.

(** [String.prototype.trim] *)
Variable trim : string -> string.

(** [col !== 'timestamp' && col !== 'label'] *)
Definition isChannel (col : string) : bool :=
  negb (String.eqb col "timestamp") && negb (String.eqb col "label").

(** The columns the header adds to [this.channels]. *)
Definition headerChannels (csv : string) : list string :=
  let lines := JSLib.split "010" csv in
  let header := JSLib.split "," (hd EmptyString lines) in
  filter isChannel (map trim header).

Definition loadCSV (file : FileRead) (s : State) : LoadResult * State :=
  match file with
  | ReadError => (FileError, s)
  | ReadResult None => (ParseError, s)
  | ReadResult (Some csv) =>
      let lines := JSLib.split "010" csv in
      let channels' := (channels s ++ headerChannels csv)%list in
      (Loaded (Z.of_nat (List.length lines) - 1) (List.length channels'),
       mkState (connected s) channels' (currentState s) (stateTimer s))
  end.

End WithTrim.

(** Every draw of the environment is a draw of [Math.random()]. *)
Definition env_ok (env : Env) : Prop :=
  JSLib.unit_draw (pick env) /\ JSLib.unit_draw (conf env) /\
  (forall i, JSLib.unit_draw (base env i)) /\
  (forall i, JSLib.unit_draw (extra env i)).

End EEGSimulator.

(** ** The two waves of the graph: the drawing effect of [SimpleBrain] *)

Module Wave.

(** The canvas of the graph: [width={500} height={180}]. *)
Definition width : Q := 500.
Definition height : Q := 180.

Section WithSin.

(** [Math.sin] *)
Variable sin : Q -> Q.

(** [(i / updatedHistory.left.length) * canvas.width] *)
Definition x (i count : nat) : Q :=
  (inject_Z (Z.of_nat i) / inject_Z (Z.of_nat count) * width)%Q.

(** The left wave: [variation = 5 * Math.sin(Date.now() / 200 + i * 0.3) *
    value] and [y = canvas.height - (value * leftScale + variation)], with
    [leftScale = canvas.height * 0.85]. *)
Definition yLeft (now : Q) (i : nat) (value : Q) : Q :=
  let leftScale := (height * 0.85)%Q in
  let variation :=
    (5 * sin (now / 200 + inject_Z (Z.of_nat i) * 0.3) * value)%Q in
  (height - (value * leftScale + variation))%Q.

(** The right wave, with its own timing. *)
Definition yRight (now : Q) (i : nat) (value : Q) : Q :=
  let rightScale := (height * 0.85)%Q in
  let variation :=
    (5 * sin (now / 180 + inject_Z (Z.of_nat i) * 0.2) * value)%Q in
  (height - (value * rightScale + variation))%Q.

End WithSin.

End Wave.

(** ** [MentalStateDisplay] (second component of
       [src/components/WebcamDebug.tsx]) *)

Module MentalStateDisplay.

Inductive Icon : Type := Brain | ArrowLeft | ArrowRight | Activity.

Section WithToLowerCase.

(** [String.prototype.toLowerCase] *)
Variable toLowerCase : string -> string.

(** [ThoughtIcon], next to the title. *)
Definition ThoughtIcon (state : string) : Icon :=
  if String.eqb (toLowerCase state) "left" then ArrowLeft
  else if String.eqb (toLowerCase state) "right" then ArrowRight
  else Brain.

(** The text of the headline. *)
Definition headline (state : string) : string :=
  if String.eqb state "left" then "Thinking Left"
  else if String.eqb state "right" then "Thinking Right"
  else ("Thinking: " ++ state)%string.

(** The content of the circle: three conditional blocks, in order. *)
Definition circle (state : string) : list Icon :=
  ((if String.eqb (toLowerCase state) "left" then [ArrowLeft] else [])
   ++ (if String.eqb (toLowerCase state) "right" then [ArrowRight] else [])
   ++ (if negb (String.eqb (toLowerCase state) "left"
                || String.eqb (toLowerCase state) "right")
       then [Activity] else []))%list.

End WithToLowerCase.

End MentalStateDisplay.

(** ** Camera starts, calls in flight, and three claims as the
       specification words them *)

(** [startEyeTracking]: every start of the camera creates fresh [let]
    variables for a new [processFrame] loop, while the React state
    ([eyePosition], also written by the eye-data poll, and the blink flag)
    keeps what it holds.  [Estimator.initial] is the start from the state
    the component mounts with. *)
Definition startEyeTracking (v : Estimator.View) : Estimator.State :=
  (Estimator.mkLocals (Estimator.mkCounter 0 0 5) 0 0%Q, v).

(** The debounce as the specification words it: at least 6 votes are
    required, so fewer than 6 frames never change the committed
    direction. *)
Definition fewer_than_six_frames_never_change_direction : Prop :=
  forall (v : Estimator.View) (fs : list (Z * Estimator.Sample)),
    (List.length fs <= 5)%nat ->
    Estimator.direction (Estimator.run fs (startEyeTracking v))
    = Estimator.eyePosition v.

(** The range of the activity scalars as the specification words it:
    after one tick or more, for every sequence of directions and draws,
    both scalars are in [0.1, 0.95]. *)
Definition scalars_in_range_after_ticks : Prop :=
  forall (ts : list Smoother.Tick) (d : BrainData),
    ts <> [] ->
    Forall (fun t : Smoother.Tick =>
              JSLib.unit_draw (snd (fst t)) /\ JSLib.unit_draw (snd t)) ts ->
    Smoother.in_range_data (Smoother.ticks ts d).

(** The blink flag as the specification words it: set by a crossing at
    [now], in a state reached by frames that arrived up to [now], it is
    cleared exactly 300ms later, so it is still set at every time before
    that. *)
Definition blink_lasts_300ms : Prop :=
  forall (frames : list (Z * Estimator.Sample)) (now t : Z)
         (b : Estimator.Sample),
    Forall (fun f => (fst f <= now)%Z) frames ->
    (15 < Qabs (Estimator.totalBrightness b
                - Estimator.prevTotalBrightness
                    (fst (Estimator.run frames Estimator.initial))))%Q ->
    (now <= t < now + 300)%Z ->
    Estimator.blinkDetected
      (snd (Estimator.fireTimeouts t
              (Estimator.onFrame now b
                 (Estimator.run frames Estimator.initial)))) = true.

(** The blink flag is set and no pending callback is due before [k]. *)
Definition quiet_until (k : Z) (st : Estimator.State) : Prop :=
  Estimator.blinkDetected (snd st) = true /\
  Forall (fun d => (k <= d)%Z) (Estimator.timeouts (snd st)).

(** The path of [fetchData] on which both endpoints failed, for a call
    that is still in flight when the state has moved on: the two tests
    read [lastErrorTime] and [errorCount] of the render that created the
    callback, while [setErrorCount((prev) => prev + 1)] and [handleReset]
    act on the state of the moment.  [Session.bothFailed] is the case in
    which the render is the current state, that is, calls that do not
    overlap. *)
Definition bothFailedFrom (render : Session.State) (now : Z)
           (resetThrows : bool) (s : Session.State) : Session.State :=
  let s1 :=
    if (5000 <? now - Session.lastErrorTime render)%Z
    then Session.mkState (Session.connected s) (Session.brainData s)
                         (Session.errorCount s + 1) now
    else s in
  if (5 <? Session.errorCount render)%Z
  then Session.handleReset resetThrows s1 else s1.

(* ================================================================== *)
(** * Part II: properties *)
(* ================================================================== *)

(** ** Polling session *)

Section SessionFacts.
Import Session.

Lemma handleReset_clears (apiThrows : bool) (s : State) :
  handleReset apiThrows s = mkState false None 0 (lastErrorTime s).
Proof. destruct apiThrows; reflexivity. Qed.

(** On the path where both endpoints answer without a usable payload, the
    counter goes up by at most one, and only when more than 5000ms have
    passed since the recorded error time, which is then moved to [now]. *)
Lemma bothFailed_rate_limited (now : Z) (rt : bool) (s : State) :
  let s' := bothFailed now rt s in
  (errorCount s' <= errorCount s + 1)%Z /\
  ((errorCount s < errorCount s')%Z ->
   (5000 < now - lastErrorTime s)%Z /\ lastErrorTime s' = now).
Proof.
  unfold bothFailed.
  destruct (5000 <? now - lastErrorTime s)%Z eqn:Hgap;
    destruct (5 <? errorCount s)%Z eqn:Hfive;
    rewrite ?handleReset_clears; cbn;
    apply Z.ltb_lt in Hgap || apply Z.ltb_ge in Hgap;
    apply Z.ltb_lt in Hfive || apply Z.ltb_ge in Hfive;
    split; try lia; intros; try lia; split; try lia; reflexivity.
Qed.

(** The same path resets the session as soon as it runs with a counter
    above 5. *)
Lemma bothFailed_breaker (now : Z) (rt : bool) (s : State) :
  (5 < errorCount s)%Z ->
  let s' := bothFailed now rt s in
  connected s' = false /\ brainData s' = None /\ errorCount s' = 0%Z.
Proof.
  intros Hgt. unfold bothFailed.
  apply Z.ltb_lt in Hgt. rewrite Hgt, handleReset_clears. cbn. auto.
Qed.

Lemma polls_cons (p : Poll) (ps : list Poll) (s : State) :
  polls (p :: ps) s = polls ps (poll p s).
Proof. reflexivity. Qed.

(** The recorded error time never moves back. *)
Lemma bothFailed_lastErrorTime (now : Z) (rt : bool) (s : State) :
  (lastErrorTime s <= lastErrorTime (bothFailed now rt s))%Z.
Proof.
  unfold bothFailed.
  destruct (Z.ltb_spec 5000 (now - lastErrorTime s));
    destruct (5 <? errorCount s)%Z; rewrite ?handleReset_clears; cbn; lia.
Qed.

Lemma poll_lastErrorTime (p : Poll) (s : State) :
  (lastErrorTime s <= lastErrorTime (poll p s))%Z.
Proof.
  unfold poll, fetchData, tryMentalState.
  pose proof (bothFailed_lastErrorTime (at_time p) (reset_throws p) s).
  destruct (connected s); [|lia].
  destruct (primary_reply p) as [| | |d]; cbn; try lia;
    [|destruct (negb (error d)); cbn; try lia];
    (destruct (secondary_reply p) as [| | |ms]; cbn; try lia;
     destruct (success ms), (data ms); cbn; lia).
Qed.

Lemma polls_lastErrorTime (ps : list Poll) :
  forall s : State, (lastErrorTime s <= lastErrorTime (polls ps s))%Z.
Proof.
  induction ps as [|p ps IH]; intros s; [cbn; lia|].
  rewrite polls_cons.
  pose proof (poll_lastErrorTime p s). pose proof (IH (poll p s)). lia.
Qed.

(** The counter is never negative. *)
Lemma poll_errorCount_nonneg (p : Poll) (s : State) :
  (0 <= errorCount s)%Z -> (0 <= errorCount (poll p s))%Z.
Proof.
  intros H0. unfold poll, fetchData, tryMentalState, bothFailed.
  destruct (connected s); [|exact H0].
  destruct (primary_reply p) as [| | |d]; cbn; try lia;
    [|destruct (negb (error d)); cbn; try lia];
    (destruct (secondary_reply p) as [| | |ms]; cbn; try lia;
     try (destruct (success ms), (data ms); cbn; try lia);
     destruct (5000 <? at_time p - lastErrorTime s)%Z;
     destruct (5 <? errorCount s)%Z; rewrite ?handleReset_clears; cbn; lia).
Qed.

Lemma polls_errorCount_nonneg (ps : list Poll) :
  forall s : State, (0 <= errorCount s)%Z -> (0 <= errorCount (polls ps s))%Z.
Proof.
  induction ps as [|p ps IH]; intros s H0; [exact H0|].
  rewrite polls_cons. apply IH, poll_errorCount_nonneg, H0.
Qed.

(** A poll that does not throw raises the counter only through the
    rate-limited path. *)
Lemma poll_increment (p : Poll) (s : State) :
  throws p = false ->
  (0 <= errorCount s)%Z ->
  (errorCount s < errorCount (poll p s))%Z ->
  (5000 < at_time p - lastErrorTime s)%Z /\
  lastErrorTime (poll p s) = at_time p.
Proof.
  unfold throws, poll, fetchData, tryMentalState, rejects.
  pose proof (bothFailed_rate_limited (at_time p) (reset_throws p) s) as [_ B].
  destruct (connected s); [|lia].
  destruct (primary_reply p) as [| | |d]; try discriminate;
    [|destruct (negb (error d)) eqn:Ee];
    try (destruct (secondary_reply p) as [| | |ms]; try discriminate;
         try destruct (success ms); try destruct (data ms));
    cbn [adopt errorCount]; intros _ H0 H; try (exact (B H)); lia.
Qed.

(** When the calls of [fetchData] do not overlap (each one runs to its end
    and is rendered before the next starts, as in [Session.polls]), the
    counter is rate limited away from the [catch] block: two polls that
    both raise it without throwing are more than 5000ms apart, whatever
    happens in the polls before and between them. *)
Theorem answered_increments_5s_apart
        (before between : list Poll) (p q : Poll) (s : State) :
  (0 <= errorCount s)%Z ->
  throws p = false -> throws q = false ->
  let s1 := polls before s in
  let s2 := polls between (poll p s1) in
  (errorCount s1 < errorCount (poll p s1))%Z ->
  (errorCount s2 < errorCount (poll q s2))%Z ->
  (5000 < at_time q - at_time p)%Z.
Proof.
  intros H0 Hp Hq s1 s2 Ip Iq.
  assert (N1 : (0 <= errorCount s1)%Z) by (apply polls_errorCount_nonneg, H0).
  assert (N2 : (0 <= errorCount s2)%Z)
    by (apply polls_errorCount_nonneg, poll_errorCount_nonneg, N1).
  destruct (poll_increment p s1 Hp N1 Ip) as [_ Lp].
  destruct (poll_increment q s2 Hq N2 Iq) as [Gq _].
  pose proof (polls_lastErrorTime between (poll p s1)) as M. fold s2 in M.
  lia.
Qed.

Lemma answered_increments_5s_apart_witness :
  (5000 < at_time (failing 12000) - at_time (failing 6000))%Z.
Proof.
  apply (answered_increments_5s_apart
           [] [failing 6200; failing 6400] (failing 6000) (failing 12000)
           justConnected); vm_compute; congruence.
Defined.

(** A poll whose first request is rejected only runs the [catch] block. *)
Lemma poll_throwing (t : Z) (s : State) :
  connected s = true -> poll (throwing t) s = caught s.
Proof. intros Hc. unfold poll. rewrite Hc. reflexivity. Qed.

Lemma polls_throwing (ts : list Z) :
  forall s : State,
    connected s = true ->
    polls (map throwing ts) s
    = mkState true (brainData s)
              (errorCount s + Z.of_nat (List.length ts)) (lastErrorTime s).
Proof.
  induction ts as [|t ts IH]; intros s Hc.
  - cbn. destruct s as [c b e l]; cbn in *. subst c. f_equal. lia.
  - cbn [map]. rewrite polls_cons, poll_throwing by exact Hc.
    rewrite IH by exact Hc.
    cbn [caught brainData errorCount lastErrorTime List.length].
    rewrite Nat2Z.inj_succ. f_equal. lia.
Qed.

(** C1 (the code departs from the claim): two polls 200ms apart whose
    requests are rejected raise the error counter twice, from 0 to 2,
    inside one 5-second window, and leave the recorded error time
    untouched: the [catch] block of [fetchData] increments without the
    5000ms test of the other failure path. *)
Theorem C1_throwing_polls_not_rate_limited :
  let s := polls [throwing 10000; throwing 10200] justConnected in
  errorCount justConnected = 0%Z /\
  errorCount s = 2%Z /\
  lastErrorTime s = lastErrorTime justConnected /\
  (10200 - 10000 < 5000)%Z.
Proof. cbn. repeat split; reflexivity. Qed.

(** C2 (the code departs from the claim): while every poll fails by
    throwing, the counter grows by one per poll without bound and the
    session is never reset: it stays connected and keeps its brain data,
    however far the counter is above 5. *)
Theorem C2_throwing_polls_never_reset (ts : list Z) (s : State) :
  connected s = true ->
  let s' := polls (map throwing ts) s in
  connected s' = true /\
  brainData s' = brainData s /\
  errorCount s' = (errorCount s + Z.of_nat (List.length ts))%Z.
Proof.
  intros Hc s'. subst s'. rewrite polls_throwing by exact Hc. cbn. auto.
Qed.

Lemma C2_throwing_polls_never_reset_witness :
  let s' := polls (map throwing [0; 200; 400; 600; 800; 1000; 1200]%Z)
                  justConnected in
  connected s' = true /\ brainData s' = brainData justConnected /\
  errorCount s' = 7%Z.
Proof.
  exact (C2_throwing_polls_never_reset
           [0; 200; 400; 600; 800; 1000; 1200]%Z justConnected eq_refl).
Defined.

End SessionFacts.

(** ** JavaScript comparisons, minimum and maximum *)

Section JSFacts.
Open Scope Q_scope.

Lemma gt_true (x y : Q) : JS.gt x y = true <-> y < x.
Proof.
  unfold JS.gt. rewrite negb_true_iff.
  destruct (Qle_bool x y) eqn:E.
  - apply Qle_bool_iff in E. split; [discriminate | intros H; lra].
  - split; [intros _ | reflexivity].
    destruct (Qlt_le_dec y x) as [H|H]; [exact H|].
    apply Qle_bool_iff in H. congruence.
Qed.

Lemma gt_false (x y : Q) : JS.gt x y = false <-> x <= y.
Proof.
  unfold JS.gt. rewrite negb_false_iff. apply Qle_bool_iff.
Qed.

Lemma gt_cases (x y : Q) :
  (JS.gt x y = true /\ y < x) \/ (JS.gt x y = false /\ x <= y).
Proof.
  destruct (JS.gt x y) eqn:E.
  - left. split; [reflexivity | now apply gt_true].
  - right. split; [reflexivity | now apply gt_false].
Qed.

Lemma Math_max_cases (a b : Q) :
  (a <= b /\ JS.Math_max a b = b) \/ (b < a /\ JS.Math_max a b = a).
Proof.
  unfold JS.Math_max. destruct (Qle_bool a b) eqn:E.
  - left. split; [now apply Qle_bool_iff | reflexivity].
  - right. split; [|reflexivity].
    destruct (Qlt_le_dec b a) as [H|H]; [exact H|].
    apply Qle_bool_iff in H. congruence.
Qed.

Lemma Math_min_cases (a b : Q) :
  (a <= b /\ JS.Math_min a b = a) \/ (b < a /\ JS.Math_min a b = b).
Proof.
  unfold JS.Math_min. destruct (Qle_bool a b) eqn:E.
  - left. split; [now apply Qle_bool_iff | reflexivity].
  - right. split; [|reflexivity].
    destruct (Qlt_le_dec b a) as [H|H]; [exact H|].
    apply Qle_bool_iff in H. congruence.
Qed.

End JSFacts.

(** ** Activity smoother *)

Section SmootherFacts.
Import Smoother.
Open Scope Q_scope.

(** The clamp lands in [0.1, 0.95] for every argument. *)
Lemma clamp_in_range (x : Q) : in_range (clamp x).
Proof.
  unfold in_range, clamp.
  destruct (Math_min_cases 0.95 x) as [[H1 E1]|[H1 E1]]; rewrite E1;
    destruct (Math_max_cases 0.1 x) as [[H2 E2]|[H2 E2]];
    destruct (Math_max_cases 0.1 0.95) as [[H3 E3]|[H3 E3]];
    rewrite ?E2, ?E3; lra.
Qed.

(** The clamp is the three-way clamp of the specification. *)
Lemma clamp_spec (x : Q) : clamp x == spec_clamp x.
Proof.
  unfold clamp, spec_clamp.
  destruct (Qlt_le_dec x 0.1) as [Hlo|Hlo];
    [|destruct (Qlt_le_dec 0.95 x) as [Hhi|Hhi]];
    destruct (Math_min_cases 0.95 x) as [[H1 E1]|[H1 E1]]; rewrite E1;
    destruct (Math_max_cases 0.1 x) as [[H2 E2]|[H2 E2]];
    destruct (Math_max_cases 0.1 0.95) as [[H3 E3]|[H3 E3]];
    rewrite ?E2, ?E3; lra.
Qed.

Lemma label_spec (l r : Q) : label l r = spec_label l r.
Proof.
  unfold label, spec_label.
  destruct (gt_cases l (r * 1.2)) as [[E H]|[E H]]; rewrite E;
    destruct (Qlt_le_dec (r * 1.2) l) as [H'|H']; try lra; try reflexivity.
  destruct (gt_cases r (l * 1.2)) as [[E2 H2]|[E2 H2]]; rewrite E2;
    destruct (Qlt_le_dec (l * 1.2) r) as [H2'|H2']; try lra; reflexivity.
Qed.

Lemma pull_spec (p : EyePosition) (d : BrainData) :
  pull p d = spec_pull p (left d) (right d).
Proof. destruct p; reflexivity. Qed.

Lemma jitter_bounds (u : Q) :
  0 <= u /\ u < 1 -> - 0.015 <= jitter u /\ jitter u < 0.015.
Proof. unfold jitter. intros [H0 H1]. split; lra. Qed.

Lemma candidates_in_range (p : EyePosition) (u1 u2 : Q) (d : BrainData) :
  in_range (fst (candidates p u1 u2 d)) /\
  in_range (snd (candidates p u1 u2 d)).
Proof.
  unfold candidates. destruct (pull p d) as [l r]. cbn [fst snd].
  split; apply clamp_in_range.
Qed.

(** What an applied tick writes. *)
Lemma updateBrainValues_Some (p : EyePosition) (u1 u2 : Q) (d d' : BrainData) :
  updateBrainValues p u1 u2 d = Some d' ->
  d' = mkBrainData (fst (candidates p u1 u2 d)) (snd (candidates p u1 u2 d))
         (label (fst (candidates p u1 u2 d)) (snd (candidates p u1 u2 d)))
         (blink d) (eye_position d)
  /\ realChange (fst (candidates p u1 u2 d)) (snd (candidates p u1 u2 d)) d = true.
Proof.
  unfold updateBrainValues. destruct (candidates p u1 u2 d) as [nl nr].
  cbn [fst snd]. destruct (realChange nl nr d); [|discriminate].
  intros [= <-]. auto.
Qed.

Lemma updateBrainValues_None (p : EyePosition) (u1 u2 : Q) (d : BrainData) :
  updateBrainValues p u1 u2 d = None <->
  realChange (fst (candidates p u1 u2 d)) (snd (candidates p u1 u2 d)) d = false.
Proof.
  unfold updateBrainValues. destruct (candidates p u1 u2 d) as [nl nr].
  cbn [fst snd]. destruct (realChange nl nr d); split; congruence.
Qed.

Lemma applied_tick_in_range (p : EyePosition) (u1 u2 : Q) (d d' : BrainData) :
  updateBrainValues p u1 u2 d = Some d' -> in_range_data d'.
Proof.
  intros H. apply updateBrainValues_Some in H as [-> _].
  unfold in_range_data. cbn [left right]. apply candidates_in_range.
Qed.

Lemma tick_same_or_in_range (p : EyePosition) (u1 u2 : Q) (d : BrainData) :
  tick p u1 u2 d = d \/ in_range_data (tick p u1 u2 d).
Proof.
  unfold tick. destruct (updateBrainValues p u1 u2 d) as [d'|] eqn:E.
  - right. eapply applied_tick_in_range; eassumption.
  - left. reflexivity.
Qed.

Lemma ticks_same_or_in_range (ts : list Tick) :
  forall d : BrainData, ticks ts d = d \/ in_range_data (ticks ts d).
Proof.
  induction ts as [|[[p u1] u2] ts IH]; intros d.
  - left. reflexivity.
  - change (ticks (((p, u1), u2) :: ts) d) with (ticks ts (tick p u1 u2 d)).
    destruct (IH (tick p u1 u2 d)) as [E|R]; [|right; exact R].
    rewrite E. apply tick_same_or_in_range.
Qed.

(** The change of the two scalars a tick proposes. *)
Lemma realChange_false (nl nr : Q) (d : BrainData) :
  realChange nl nr d = false <->
  Qabs (nl - left d) <= 0.001 /\ Qabs (nr - right d) <= 0.001.
Proof.
  unfold realChange, JS.Math_abs. rewrite orb_false_iff, !gt_false.
  reflexivity.
Qed.

Lemma realChange_true (nl nr : Q) (d : BrainData) :
  realChange nl nr d = true <->
  0.001 < Qabs (nl - left d) \/ 0.001 < Qabs (nr - right d).
Proof.
  unfold realChange, JS.Math_abs. rewrite orb_true_iff, !gt_true.
  reflexivity.
Qed.

Lemma Qabs_lower (x y : Q) : y < x \/ y < - x -> y < Qabs x.
Proof.
  intros H. apply (Qabs_case x); intros Hx; lra.
Qed.

(** A tick that finds a change above 0.001 writes its two candidates. *)
Lemma tick_writes (p : EyePosition) (u1 u2 : Q) (d : BrainData) :
  0.001 < Qabs (fst (candidates p u1 u2 d) - left d) \/
  0.001 < Qabs (snd (candidates p u1 u2 d) - right d) ->
  updateBrainValues p u1 u2 d
  = Some (mkBrainData (fst (candidates p u1 u2 d)) (snd (candidates p u1 u2 d))
            (label (fst (candidates p u1 u2 d)) (snd (candidates p u1 u2 d)))
            (blink d) (eye_position d)).
Proof.
  intros H. apply realChange_true in H. revert H.
  unfold updateBrainValues. destruct (candidates p u1 u2 d) as [nl nr].
  cbn [fst snd]. intros ->. reflexivity.
Qed.

(** A tick that finds no change above 0.001 calls no setter. *)
Lemma tick_skips (p : EyePosition) (u1 u2 : Q) (d : BrainData) :
  Qabs (fst (candidates p u1 u2 d) - left d) <= 0.001 /\
  Qabs (snd (candidates p u1 u2 d) - right d) <= 0.001 ->
  updateBrainValues p u1 u2 d = None /\ tick p u1 u2 d = d.
Proof.
  intros H. apply realChange_false in H.
  apply updateBrainValues_None in H. unfold tick. rewrite H. auto.
Qed.

(** C3, counterexample: the range is not reached from every data the
    remote source can hand over.  Looking right with [left = 0.9505],
    [right = 0.25] and draws 0.9 and 5/6, the clamp moves [left] by 0.0005
    and [right] comes back to 0.25, so the tick is skipped and [left]
    stays above 0.95. *)
Lemma C3_counterexample : ~ scalars_in_range_after_ticks.
Proof.
  intros H.
  specialize (H [(EyeRight, 0.9, 5 # 6)]
                (mkBrainData 0.9505 0.25 "analytical" false "right")).
  assert (Hne : [(EyeRight, 0.9, 5 # 6)] <> @nil Tick) by discriminate.
  assert (Hu : Forall (fun t : Tick =>
                         JSLib.unit_draw (snd (fst t)) /\ JSLib.unit_draw (snd t))
                      [(EyeRight, 0.9, 5 # 6)]).
  { repeat constructor; discriminate. }
  specialize (H Hne Hu). vm_compute in H.
  destruct H as [[_ H] _]. apply H. reflexivity.
Qed.

(** C3 (amended): the candidates of every tick lie in [0.1, 0.95],
    whatever the previous scalars, the direction and the draws.  A tick
    that finds a change above 0.001 in a scalar writes both candidates, so
    the data is in the range after it; this is the case whenever a scalar
    is more than 0.001 outside the range.  Hence data that starts in the
    range stays in it through any sequence of ticks, and from any data a
    sequence of ticks ends either in the range or with the data it started
    from (every tick skipped). *)
Theorem C3_scalars_in_range_once_written
        (ts : list Tick) (p : EyePosition) (u1 u2 : Q) (d : BrainData) :
  let nl := fst (candidates p u1 u2 d) in
  let nr := snd (candidates p u1 u2 d) in
  (in_range nl /\ in_range nr) /\
  (0.001 < Qabs (nl - left d) \/ 0.001 < Qabs (nr - right d) ->
   updateBrainValues p u1 u2 d <> None /\
   left (tick p u1 u2 d) = nl /\ right (tick p u1 u2 d) = nr /\
   in_range_data (tick p u1 u2 d)) /\
  (left d < 0.099 \/ 0.951 < left d \/ right d < 0.099 \/ 0.951 < right d ->
   in_range_data (tick p u1 u2 d)) /\
  (in_range_data d -> in_range_data (ticks ts d)) /\
  (ticks ts d = d \/ in_range_data (ticks ts d)).
Proof.
  intros nl nr.
  pose proof (candidates_in_range p u1 u2 d) as [Rl Rr]. fold nl nr in Rl, Rr.
  assert (W : 0.001 < Qabs (nl - left d) \/ 0.001 < Qabs (nr - right d) ->
              updateBrainValues p u1 u2 d <> None /\
              left (tick p u1 u2 d) = nl /\ right (tick p u1 u2 d) = nr /\
              in_range_data (tick p u1 u2 d)).
  { intros H. pose proof (tick_writes p u1 u2 d H) as E.
    unfold tick. rewrite E. cbn [left right]. fold nl nr.
    repeat split; try discriminate; try apply Rl; apply Rr. }
  split; [split; assumption|]. split; [exact W|]. split; [|split].
  - intros H. apply W. destruct Rl as [l0 l1]. destruct Rr as [r0 r1].
    destruct H as [H|[H|[H|H]]];
      [left | left | right | right]; apply Qabs_lower; lra.
  - intros Hd. destruct (ticks_same_or_in_range ts d) as [E|R];
      [rewrite E; exact Hd | exact R].
  - apply ticks_same_or_in_range.
Qed.

(** A skipped tick keeps data it did not write: scalars that come out of
    range from the remote source stay as they are while the tick finds no
    change above 0.001 (here [left = 0.9505] is clamped to 0.95, a change
    of 0.0005, and [right] comes back to 0.25). *)
Example skipped_tick_keeps_remote_data :
  let d := mkBrainData 0.9505 0.25 "analytical" false "right" in
  updateBrainValues EyeRight 0.9 (5 # 6) d = None /\
  tick EyeRight 0.9 (5 # 6) d = d /\
  0.95 < left d.
Proof. vm_compute. repeat split. Qed.

(** C5: with draws [u1], [u2] of [Math.random()] in [0, 1), the two
    variations lie in [-0.015, 0.015]; the candidates of a tick are the
    clamp to [0.1, 0.95] of the direction's pull (rate 0.2 towards 0.9 and
    0.2 for left and right, rate 0.1 towards 0.6 and 0.65 for center) plus
    the variation; a tick that finds a change above 0.001 in a scalar
    calls [setBrainData] with exactly these two scalars and the label
    recomputed from them, every other field kept; a tick whose two changes
    are at most 0.001 calls no setter. *)
Theorem C5_tick_formula (p : EyePosition) (u1 u2 : Q) (d : BrainData) :
  0 <= u1 /\ u1 < 1 ->
  0 <= u2 /\ u2 < 1 ->
  (- 0.015 <= jitter u1 <= 0.015 /\ - 0.015 <= jitter u2 <= 0.015) /\
  exists nl nr : Q,
    candidates p u1 u2 d = (nl, nr) /\
    nl == spec_clamp (fst (spec_pull p (left d) (right d)) + jitter u1) /\
    nr == spec_clamp (snd (spec_pull p (left d) (right d)) + jitter u2) /\
    (0.001 < Qabs (nl - left d) \/ 0.001 < Qabs (nr - right d) ->
     updateBrainValues p u1 u2 d
     = Some (mkBrainData nl nr (spec_label nl nr) (blink d) (eye_position d)) /\
     tick p u1 u2 d
     = mkBrainData nl nr (spec_label nl nr) (blink d) (eye_position d)) /\
    (Qabs (nl - left d) <= 0.001 /\ Qabs (nr - right d) <= 0.001 ->
     updateBrainValues p u1 u2 d = None /\ tick p u1 u2 d = d).
Proof.
  intros Hu1 Hu2.
  pose proof (jitter_bounds u1 Hu1) as [J1 J1'].
  pose proof (jitter_bounds u2 Hu2) as [J2 J2'].
  split; [repeat split; lra|].
  exists (fst (candidates p u1 u2 d)), (snd (candidates p u1 u2 d)).
  split; [destruct (candidates p u1 u2 d); reflexivity|].
  split; [|split; [|split]].
  - unfold candidates. rewrite pull_spec.
    destruct (spec_pull p (left d) (right d)) as [l r]. cbn [fst snd].
    apply clamp_spec.
  - unfold candidates. rewrite pull_spec.
    destruct (spec_pull p (left d) (right d)) as [l r]. cbn [fst snd].
    apply clamp_spec.
  - intros H. pose proof (tick_writes p u1 u2 d H) as E.
    unfold tick. rewrite E, label_spec. split; reflexivity.
  - apply tick_skips.
Qed.

(** Looking left from [left = 0.6], [right = 0.65] with no variation: the
    tick writes [left = 0.52], [right = 0.7] and the label 'creative'. *)
Lemma C5_tick_formula_witness :
  exists d' : BrainData,
    updateBrainValues EyeLeft 0.5 0.5
      (mkBrainData 0.6 0.65 "balanced" false "left") = Some d' /\
    left d' == 0.52 /\ right d' == 0.7 /\ state d' = "creative"%string.
Proof.
  destruct (C5_tick_formula EyeLeft 0.5 0.5
              (mkBrainData 0.6 0.65 "balanced" false "left"))
    as (_ & nl & nr & Ec & _ & _ & Hw & _).
  - split; [discriminate | reflexivity].
  - split; [discriminate | reflexivity].
  - injection Ec as <- <-.
    destruct Hw as [Hw _]; [left; reflexivity|].
    eexists. split; [exact Hw|]. repeat split; reflexivity.
Defined.

(** C6: a tick for which the change in either scalar is below 0.001,
    that is, the left change and the right change both are, is a no-op: no
    setter is called and the brain data is exactly what it was.  The rule
    is not idle: a change above 0.001 in one scalar alone makes the tick
    write both candidates. *)
Theorem C6_small_changes_skip (p : EyePosition) (u1 u2 : Q) (d : BrainData) :
  let nl := fst (candidates p u1 u2 d) in
  let nr := snd (candidates p u1 u2 d) in
  (Qabs (nl - left d) < 0.001 /\ Qabs (nr - right d) < 0.001 ->
   updateBrainValues p u1 u2 d = None /\ tick p u1 u2 d = d) /\
  (0.001 < Qabs (nl - left d) \/ 0.001 < Qabs (nr - right d) ->
   updateBrainValues p u1 u2 d <> None /\
   left (tick p u1 u2 d) = nl /\ right (tick p u1 u2 d) = nr).
Proof.
  intros nl nr. split.
  - intros [Hl Hr]. apply tick_skips. fold nl nr. split; lra.
  - intros H. pose proof (tick_writes p u1 u2 d H) as E.
    unfold tick. rewrite E. cbn [left right]. repeat split. discriminate.
Qed.

(** At the targets of the center pull, with no variation, nothing changes
    and the tick is skipped; from [right = 0.1] the right scalar moves by
    0.055 and the tick writes, although the left one does not move. *)
Lemma C6_small_changes_skip_witness :
  updateBrainValues EyeCenter 0.5 0.5
    (mkBrainData 0.6 0.65 "balanced" false "center") = None /\
  updateBrainValues EyeCenter 0.5 0.5
    (mkBrainData 0.6 0.1 "balanced" false "center") <> None.
Proof.
  split.
  - apply (C6_small_changes_skip EyeCenter 0.5 0.5
             (mkBrainData 0.6 0.65 "balanced" false "center")).
    split; reflexivity.
  - apply (C6_small_changes_skip EyeCenter 0.5 0.5
             (mkBrainData 0.6 0.1 "balanced" false "center")).
    right. reflexivity.
Defined.

(** C10: [getBrainSide] is null without brain data; with data it answers
    'left' exactly when [left > right + 0.1], 'right' exactly when
    [right > left + 0.1], and 'balanced' otherwise.  The rule differs from
    the label's: for [left = 0.2], [right = 0.15] the side is 'balanced'
    while the label is 'analytical'. *)
Theorem C10_getBrainSide (d : BrainData) :
  getBrainSide None = None /\
  (getBrainSide (Some d) = Some "left"%string <-> right d + 0.1 < left d) /\
  (getBrainSide (Some d) = Some "right"%string <-> left d + 0.1 < right d) /\
  (getBrainSide (Some d) = Some "balanced"%string <->
     ~ right d + 0.1 < left d /\ ~ left d + 0.1 < right d) /\
  (getBrainSide (Some (mkBrainData 0.2 0.15 "analytical" false "center"))
     = Some "balanced"%string /\
   label 0.2 0.15 = "analytical"%string).
Proof.
  split; [reflexivity|].
  unfold getBrainSide.
  destruct (gt_cases (left d) (right d + 0.1)) as [[E1 H1]|[E1 H1]]; rewrite E1;
    destruct (gt_cases (right d) (left d + 0.1)) as [[E2 H2]|[E2 H2]];
    rewrite ?E2;
    (repeat split; try reflexivity; try discriminate; try lra;
     try (intros; exact H1); try (intros; exact H2);
     try (intros [A B]; exfalso; lra); try (intros _; lra)).
Qed.

End SmootherFacts.

(** ** Direction/blink estimator *)

Section EstimatorFacts.
Import Estimator.
Open Scope Z_scope.

Lemma fireTimeouts_locals (now : Z) (st : State) :
  fst (fireTimeouts now st) = fst st.
Proof.
  destruct st as [loc v]. unfold fireTimeouts.
  destruct (existsb (due now) (timeouts v)); reflexivity.
Qed.

Lemma fireTimeouts_direction (now : Z) (st : State) :
  direction (fireTimeouts now st) = direction st.
Proof.
  destruct st as [loc v]. unfold fireTimeouts, direction.
  destruct (existsb (due now) (timeouts v)); reflexivity.
Qed.

(** The counters and the direction after a frame depend on the vote and
    the threshold test alone. *)
Lemma estimate_commit (now : Z) (b : Sample) (st : State) :
  (counters (estimate now b st), direction (estimate now b st))
  = commit (vote (newPosition b) (counters st)) (direction st).
Proof.
  destruct st as [loc v]. unfold estimate, counters, direction.
  cbn [fst snd].
  replace (eyePosition (if blinkCrossing b (prevTotalBrightness loc)
                        then mkView (eyePosition v) true
                                    (timeouts v ++ [now + 300])
                        else v))
    with (eyePosition v)
    by (destruct (blinkCrossing b (prevTotalBrightness loc)); reflexivity).
  destruct (commit (vote (newPosition b) (eyePositionCounter loc))
                   (eyePosition v)) as [c' dir'].
  reflexivity.
Qed.

Lemma onFrame_commit (now : Z) (b : Sample) (st : State) :
  (counters (onFrame now b st), direction (onFrame now b st))
  = commit (vote (newPosition b) (counters st)) (direction st).
Proof.
  unfold onFrame. rewrite estimate_commit.
  rewrite fireTimeouts_direction. unfold counters.
  rewrite fireTimeouts_locals. reflexivity.
Qed.

Lemma maxCount_within (c : Counter) : within c -> maxCount c <= 5.
Proof. unfold within, maxCount. lia. Qed.

(** After a vote of a state within bounds, only the voted direction can
    be above the threshold. *)
Lemma vote_bounds (p : EyePosition) (c : Counter) :
  within c ->
  let v := vote p c in
  0 <= left v <= 6 /\ 0 <= right v <= 6 /\ 0 <= center v <= 6 /\
  count p v = count p c + 1 /\
  (forall q, q <> p -> count q v = Z.max 0 (count q c - 1)) /\
  maxCount v = Z.max (count p c + 1) (maxCount v) /\
  (5 < maxCount v -> count p c = 5 /\ currentPosition v = p).
Proof.
  unfold within, currentPosition, maxCount.
  intros (Hl & Hr & Hc).
  destruct p; cbn [vote left right center count];
    (split; [lia|]; split; [lia|]; split; [lia|]; split; [lia|];
     split; [intros q Hq; destruct q; cbn [count left right center];
             try congruence; lia|];
     split; [lia|]; intros H; split; [lia|];
     repeat match goal with
            | |- context [(?a =? ?b)] => destruct (Z.eqb_spec a b)
            end; try reflexivity; lia).
Qed.

Lemma currentPosition_max (c : Counter) :
  count (currentPosition c) c = maxCount c.
Proof.
  unfold currentPosition.
  destruct (Z.eqb_spec (maxCount c) (left c)) as [E|N]; [cbn; lia|].
  destruct (Z.eqb_spec (maxCount c) (right c)) as [E'|N']; [cbn; lia|].
  cbn. unfold maxCount in *. lia.
Qed.

Lemma resetCounter_count (p q : EyePosition) :
  count q (resetCounter p) = if eqPosition q p then 2 else 0.
Proof. destruct p, q; reflexivity. Qed.

Lemma resetCounter_within (p : EyePosition) : within (resetCounter p).
Proof. destruct p; unfold within; cbn; lia. Qed.

Lemma eqPosition_spec (p q : EyePosition) :
  eqPosition p q = true <-> p = q.
Proof. destruct p, q; cbn; split; congruence. Qed.

Lemma eqPosition_refl (p : EyePosition) : eqPosition p p = true.
Proof. destruct p; reflexivity. Qed.

Lemma eqPosition_neq (p q : EyePosition) : p <> q -> eqPosition p q = false.
Proof. destruct p, q; cbn; congruence. Qed.

(** One vote followed by the threshold test, from counters within
    bounds: either the voted direction had 5 votes, and it is committed
    and the counters are reset around it, or nothing is committed. *)
Lemma commit_vote (p : EyePosition) (c : Counter) (d : EyePosition) :
  within c ->
  (count p c = 5 /\ 5 < maxCount (vote p c) /\
   commit (vote p c) d = (resetCounter p, p))
  \/
  (count p c < 5 /\ maxCount (vote p c) <= 5 /\
   commit (vote p c) d = (vote p c, d) /\ within (vote p c)).
Proof.
  intros Hw.
  pose proof (vote_bounds p c Hw) as (Hl & Hr & Hc & Hp & Hq & _ & Hwin).
  unfold commit.
  destruct (Z.ltb_spec 5 (maxCount (vote p c))) as [Hgt|Hle].
  - left. destruct (Hwin Hgt) as [H5 Hcur]. rewrite Hcur. auto.
  - right. split; [|split; [exact Hle|split; [reflexivity|]]].
    + assert (count p (vote p c) <= maxCount (vote p c))
        by (destruct p; unfold maxCount; cbn [count]; lia).
      lia.
    + unfold within. unfold maxCount in Hle. lia.
Qed.

Lemma onFrame_within (now : Z) (b : Sample) (st : State) :
  within (counters st) -> within (counters (onFrame now b st)).
Proof.
  intros Hw. pose proof (onFrame_commit now b st) as E.
  destruct (commit_vote (newPosition b) (counters st) (direction st) Hw)
    as [(_ & _ & C)|(_ & _ & C & W)]; rewrite C in E;
    injection E as Ec _; rewrite Ec;
    [apply resetCounter_within | exact W].
Qed.

Lemma run_within (frames : list (Z * Sample)) :
  forall st : State, within (counters st) -> within (counters (run frames st)).
Proof.
  induction frames as [|[now b] frames IH]; intros st Hw; [exact Hw|].
  cbn [run]. apply IH, onFrame_within, Hw.
Qed.

Lemma initial_within : within (counters initial).
Proof. unfold within; cbn; lia. Qed.

Lemma reachable_within (frames : list (Z * Sample)) :
  within (counters (run frames initial)).
Proof. apply run_within, initial_within. Qed.

(** C7: after every frame of every run from the initial state the three
    counters are non-negative; when the vote takes some counter above 5,
    the direction holding the maximum is committed, its counter is set to
    2 and the two others to 0; otherwise the counters are the voted ones
    and the direction is kept. *)
Theorem C7_vote_invariant (frames : list (Z * Sample)) (now : Z) (b : Sample) :
  let st := run frames initial in
  let st' := onFrame now b st in
  let voted := vote (newPosition b) (counters st) in
  (0 <= left (counters st') /\ 0 <= right (counters st') /\
   0 <= center (counters st')) /\
  (5 < maxCount voted ->
     direction st' = currentPosition voted /\
     count (currentPosition voted) voted = maxCount voted /\
     count (direction st') (counters st') = 2 /\
     forall q, q <> direction st' -> count q (counters st') = 0) /\
  (maxCount voted <= 5 ->
     counters st' = voted /\ direction st' = direction st).
Proof.
  intros st st' voted.
  pose proof (reachable_within frames) as Hw. fold st in Hw.
  pose proof (onFrame_within now b st Hw) as Hw'. fold st' in Hw'.
  pose proof (onFrame_commit now b st) as E. fold st' voted in E.
  split; [unfold within in Hw'; lia|].
  unfold commit in E.
  split; intros Hmax.
  - apply Z.ltb_lt in Hmax. rewrite Hmax in E. injection E as Ec Ed.
    rewrite Ec, Ed. split; [reflexivity|]. split; [apply currentPosition_max|].
    split.
    + rewrite resetCounter_count, eqPosition_refl. reflexivity.
    + intros q Hq. rewrite resetCounter_count, eqPosition_neq by exact Hq.
      reflexivity.
  - apply Z.ltb_ge in Hmax. rewrite Hmax in E. injection E as Ec Ed. auto.
Qed.

(** A frame from counters within bounds, in terms of the state. *)
Lemma onFrame_step (now : Z) (b : Sample) (st : State) :
  within (counters st) ->
  let p := newPosition b in
  let st' := onFrame now b st in
  (count p (counters st) = 5 /\
   counters st' = resetCounter p /\ direction st' = p)
  \/
  (count p (counters st) < 5 /\
   counters st' = vote p (counters st) /\ direction st' = direction st).
Proof.
  intros Hw p st'. pose proof (onFrame_commit now b st) as E.
  fold p st' in E.
  destruct (commit_vote p (counters st) (direction st) Hw)
    as [(H5 & _ & C)|(H5 & _ & C & _)]; rewrite C in E;
    injection E as Ec Ed; [left | right]; auto.
Qed.

Lemma newPosition_left (b : Sample) :
  JS.gt (leftBrightness b) (rightBrightness b * 1.1)%Q = true ->
  JS.number_gt (JS.div (leftBrightness b) (centerBrightness b * 0.8)%Q) 1.1 = true ->
  newPosition b = EyeLeft.
Proof.
  intros H1 H2. unfold newPosition, looksLeft. rewrite H1, H2. reflexivity.
Qed.

Section LeftSamples.
Variable b : Sample.
Hypothesis b_left : newPosition b = EyeLeft.

(** Once 'left' is committed, further left samples keep it. *)
Lemma left_samples_keep (ts : list Z) :
  forall st : State,
    within (counters st) -> direction st = EyeLeft ->
    direction (run (repeated b ts) st) = EyeLeft.
Proof.
  induction ts as [|t ts IH]; intros st Hw Hd; [exact Hd|].
  cbn [repeated map run]. apply IH.
  - apply onFrame_within, Hw.
  - destruct (onFrame_step t b st Hw) as [(_ & _ & D)|(_ & _ & D)];
      rewrite D; [exact b_left | exact Hd].
Qed.

(** Left samples commit 'left' as soon as they fill the left counter. *)
Lemma left_samples_commit (ts : list Z) :
  forall st : State,
    within (counters st) ->
    6 - left (counters st) <= Z.of_nat (List.length ts) ->
    direction (run (repeated b ts) st) = EyeLeft.
Proof.
  induction ts as [|t ts IH]; intros st Hw Hn.
  - unfold within in Hw. cbn [List.length] in Hn. lia.
  - cbn [repeated map run]. fold (repeated b ts).
    pose proof (onFrame_within t b st Hw) as Hw'.
    destruct (onFrame_step t b st Hw) as [(H5 & _ & D)|(H5 & C & _)];
      rewrite b_left in *.
    + apply left_samples_keep; assumption.
    + apply IH; [exact Hw'|]. rewrite C. cbn [vote left count] in *.
      cbn [List.length] in Hn. rewrite Nat2Z.inj_succ in Hn. lia.
Qed.
End LeftSamples.

(** While the rivals of the committed direction hold at most 4 votes, a
    frame cannot change the direction, and it gives them at most one
    more. *)
Lemma rivals_step (k now : Z) (b : Sample) (st : State) :
  within (counters st) -> rivals_at_most k st -> k <= 4 ->
  direction (onFrame now b st) = direction st /\
  rivals_at_most (k + 1) (onFrame now b st).
Proof.
  intros Hw Hr Hk.
  assert (H0 : 0 <= k).
  { destruct (direction st) eqn:Ed.
    - specialize (Hr EyeRight). rewrite Ed in Hr. cbn in Hr.
      unfold within in Hw. specialize (Hr ltac:(discriminate)). lia.
    - specialize (Hr EyeLeft). rewrite Ed in Hr. cbn in Hr.
      unfold within in Hw. specialize (Hr ltac:(discriminate)). lia.
    - specialize (Hr EyeLeft). rewrite Ed in Hr. cbn in Hr.
      unfold within in Hw. specialize (Hr ltac:(discriminate)). lia. }
  pose proof (vote_bounds (newPosition b) (counters st) Hw)
    as (_ & _ & _ & Hp & Hq & _).
  destruct (onFrame_step now b st Hw) as [(H5 & C & D)|(H5 & C & D)].
  - assert (Hsame : newPosition b = direction st).
    { destruct (eqPosition (newPosition b) (direction st)) eqn:E.
      - now apply eqPosition_spec.
      - exfalso. assert (newPosition b <> direction st) as N
            by (intros N; apply eqPosition_spec in N; congruence).
        specialize (Hr _ N). lia. }
    split; [congruence|].
    intros q Nq. rewrite C, resetCounter_count.
    rewrite D in Nq. rewrite eqPosition_neq by exact Nq. lia.
  - split; [exact D|].
    intros q Nq. rewrite C. rewrite D in Nq.
    destruct (eqPosition q (newPosition b)) eqn:E.
    + apply eqPosition_spec in E. subst q. specialize (Hr _ Nq). lia.
    + assert (q <> newPosition b) as N
          by (intros N; apply eqPosition_spec in N; congruence).
      rewrite (Hq q N). specialize (Hr _ Nq). lia.
Qed.

(** Fewer than 6 frames cannot outvote a direction whose rivals start
    from [k] votes when [k] plus their number stays at or below 5. *)
Lemma rivals_run (fs : list (Z * Sample)) :
  forall (k : Z) (st : State),
    within (counters st) -> rivals_at_most k st ->
    k + Z.of_nat (List.length fs) <= 5 ->
    direction (run fs st) = direction st.
Proof.
  induction fs as [|[now b] fs IH]; intros k st Hw Hr Hk; [reflexivity|].
  cbn [run]. cbn [List.length] in Hk. rewrite Nat2Z.inj_succ in Hk.
  destruct (rivals_step k now b st Hw Hr ltac:(lia)) as [D R].
  rewrite <- D. apply (IH (k + 1)).
  - apply onFrame_within, Hw.
  - exact R.
  - lia.
Qed.

Lemma initial_rivals : rivals_at_most 0 initial.
Proof. intros p Hp. destruct p; cbn in *; try lia. congruence. Qed.

(** A frame that votes for another direction than the frame before it
    never changes the committed direction. *)
Lemma flicker_cannot_flip (t1 t2 : Z) (b1 b2 : Sample) (st : State) :
  within (counters st) ->
  newPosition b1 <> newPosition b2 ->
  direction (onFrame t2 b2 (onFrame t1 b1 st)) = direction (onFrame t1 b1 st).
Proof.
  intros Hw Hne.
  pose proof (onFrame_within t1 b1 st Hw) as Hw1.
  pose proof (vote_bounds (newPosition b1) (counters st) Hw)
    as (_ & _ & _ & _ & Hq & _).
  assert (H4 : count (newPosition b2) (counters (onFrame t1 b1 st)) <= 4).
  { destruct (onFrame_step t1 b1 st Hw) as [(_ & C & _)|(_ & C & _)];
      rewrite C.
    - rewrite resetCounter_count, eqPosition_neq by congruence. lia.
    - rewrite (Hq (newPosition b2)) by congruence.
      assert (count (newPosition b2) (counters st) <= 5)
        by (unfold within in Hw; destruct (newPosition b2); cbn; lia).
      lia. }
  destruct (onFrame_step t2 b2 _ Hw1) as [(H5 & _ & _)|(_ & _ & D)];
    [lia | exact D].
Qed.

Lemma startEyeTracking_within (v : View) :
  within (counters (startEyeTracking v)).
Proof. unfold within; cbn; lia. Qed.

Lemma startEyeTracking_rivals (v : View) :
  eyePosition v = EyeCenter -> rivals_at_most 0 (startEyeTracking v).
Proof.
  intros Hv p Hp. unfold direction in Hp. cbn [startEyeTracking snd] in Hp.
  rewrite Hv in Hp. destruct p; cbn; try lia. congruence.
Qed.

Lemma started_within (v : View) (frames : list (Z * Sample)) :
  within (counters (run frames (startEyeTracking v))).
Proof. apply run_within, startEyeTracking_within. Qed.

(** C4, counterexample: the camera is started while 'left' is displayed
    (committed by an earlier run of the camera, or written by the eye-data
    poll); the counters are created anew with 5 for the center, so the
    first frame that shows no clear difference takes the center counter to
    6 and 'center' is committed, on a single vote. *)
Lemma C4_counterexample : ~ fewer_than_six_frames_never_change_direction.
Proof.
  intros H.
  specialize (H (mkView EyeLeft false []) [(0, mkSample 100 100 100)]).
  assert (L : (List.length [(0, mkSample 100 100 100)] <= 5)%nat)
    by (cbn; repeat constructor).
  specialize (H L). vm_compute in H. discriminate.
Qed.

(** C4 (amended): a sample with [left > right * 1.1] and
    [left / (center * 0.8) > 1.1], fed 6 times in a row to the estimator
    in any state that a run of frames can reach from any start of the
    camera, leaves 'left' committed.  The direction is debounced in the
    following sense: a frame changes it only when the counter of the
    direction it votes for stood at 5, so that its vote makes 6; a frame
    that votes otherwise than the frame before it never changes it; right
    after a commit no 5 frames can change it; and from a start of the
    camera no 5 frames can change it when 'center' is displayed at the
    start.  When another direction is displayed at the start, the first
    frame that votes for the center commits 'center', because every start
    gives the center counter 5. *)
Theorem C4_six_left_samples_and_debounce_from_any_start
        (v : View) (frames : list (Z * Sample)) (b : Sample) (ts : list Z) :
  JS.gt (leftBrightness b) (rightBrightness b * 1.1)%Q = true ->
  JS.number_gt (JS.div (leftBrightness b) (centerBrightness b * 0.8)%Q) 1.1
    = true ->
  List.length ts = 6%nat ->
  let st := run frames (startEyeTracking v) in
  direction (run (repeated b ts) st) = EyeLeft /\
  (forall now b',
      direction (onFrame now b' st) <> direction st ->
      newPosition b' = direction (onFrame now b' st) /\
      count (newPosition b') (counters st) = 5 /\
      count (newPosition b') (vote (newPosition b') (counters st)) = 6) /\
  (forall t1 t2 b1 b2,
      newPosition b1 <> newPosition b2 ->
      direction (onFrame t2 b2 (onFrame t1 b1 st))
      = direction (onFrame t1 b1 st)) /\
  (forall now b' fs,
      5 < maxCount (vote (newPosition b') (counters st)) ->
      (List.length fs <= 5)%nat ->
      direction (onFrame now b' st) = newPosition b' /\
      direction (run fs (onFrame now b' st)) = newPosition b') /\
  (eyePosition v = EyeCenter ->
   forall fs,
     (List.length fs <= 5)%nat ->
     direction (run fs (startEyeTracking v)) = EyeCenter) /\
  (forall now b',
      newPosition b' = EyeCenter ->
      direction (onFrame now b' (startEyeTracking v)) = EyeCenter).
Proof.
  intros Hgt Hratio Hlen st.
  pose proof (started_within v frames) as Hw. fold st in Hw.
  split; [|split; [|split; [|split; [|split]]]].
  - apply left_samples_commit.
    + apply newPosition_left; assumption.
    + exact Hw.
    + rewrite Hlen. unfold within in Hw. lia.
  - intros now b' Hne.
    destruct (onFrame_step now b' st Hw) as [(H5 & _ & D)|(_ & _ & D)];
      [|congruence].
    split; [congruence|]. split; [exact H5|].
    pose proof (vote_bounds (newPosition b') (counters st) Hw)
      as (_ & _ & _ & Hp & _). lia.
  - intros t1 t2 b1 b2. apply flicker_cannot_flip, Hw.
  - intros now b' fs Hmax Hfs.
    destruct (commit_vote (newPosition b') (counters st) (direction st) Hw)
      as [(_ & _ & C)|(_ & Hle & _)]; [|lia].
    pose proof (onFrame_commit now b' st) as E. rewrite C in E.
    injection E as Ec Ed. split; [exact Ed|].
    transitivity (direction (onFrame now b' st)); [|exact Ed].
    apply (rivals_run fs 0).
    + apply onFrame_within, Hw.
    + intros q Hq. rewrite Ec, resetCounter_count.
      rewrite Ed in Hq. rewrite eqPosition_neq by exact Hq. lia.
    + lia.
  - intros Hv fs Hfs.
    replace EyeCenter with (direction (startEyeTracking v))
      by (unfold direction; cbn [startEyeTracking snd]; exact Hv).
    apply (rivals_run fs 0).
    + apply startEyeTracking_within.
    + apply startEyeTracking_rivals, Hv.
    + lia.
  - intros now b' Hb'.
    destruct (onFrame_step now b' (startEyeTracking v)
                (startEyeTracking_within v)) as [(_ & _ & D)|(H5 & _ & _)].
    + rewrite D. exact Hb'.
    + rewrite Hb' in H5. cbn in H5. lia.
Qed.

(** The example of the specification: [{left: 120, center: 90, right: 80}]
    six times, here from a start of the camera with 'right' displayed. *)
Lemma C4_six_left_samples_and_debounce_from_any_start_witness :
  direction (run (repeated (mkSample 120 90 80) [0; 50; 100; 150; 200; 250])
                 (startEyeTracking (mkView EyeRight false []))) = EyeLeft.
Proof.
  exact (proj1 (C4_six_left_samples_and_debounce_from_any_start
                  (mkView EyeRight false [])
                  [] (mkSample 120 90 80) [0; 50; 100; 150; 200; 250]
                  eq_refl eq_refl eq_refl)).
Defined.

(** *** Blink flag and its timers *)

Lemma filter_not_due_all (now : Z) (l : list Z) :
  existsb (due now) l = false -> filter (fun t => negb (due now t)) l = l.
Proof.
  induction l as [|t l IH]; [reflexivity|].
  cbn. destruct (due now t); cbn; [discriminate|].
  intros H. rewrite IH by exact H. reflexivity.
Qed.

Lemma fireTimeouts_timeouts (now : Z) (st : State) :
  timeouts (snd (fireTimeouts now st))
  = filter (fun t => negb (due now t)) (timeouts (snd st)).
Proof.
  destruct st as [loc v]. unfold fireTimeouts.
  destruct (existsb (due now) (timeouts v)) eqn:E; cbn [snd timeouts].
  - reflexivity.
  - symmetry. apply filter_not_due_all, E.
Qed.

Lemma estimate_prev (now : Z) (b : Sample) (st : State) :
  prevTotalBrightness (fst (estimate now b st)) = totalBrightness b.
Proof.
  destruct st as [loc v]. unfold estimate.
  destruct (commit _ _). reflexivity.
Qed.

Lemma estimate_view (now : Z) (b : Sample) (st : State) :
  blinkDetected (snd (estimate now b st))
  = (if blinkCrossing b (prevTotalBrightness (fst st))
     then true else blinkDetected (snd st)) /\
  timeouts (snd (estimate now b st))
  = timeouts (snd st)
    ++ (if blinkCrossing b (prevTotalBrightness (fst st))
        then [now + 300] else []).
Proof.
  destruct st as [loc v]. unfold estimate. cbn [fst snd].
  destruct (commit _ _).
  destruct (blinkCrossing b (prevTotalBrightness loc)); cbn;
    rewrite ?app_nil_r; auto.
Qed.

(** A pending callback survives every frame that arrives before it is
    due. *)
Lemma onFrame_keeps_pending (t now : Z) (b : Sample) (st : State) :
  now < t -> In t (timeouts (snd st)) ->
  In t (timeouts (snd (onFrame now b st))).
Proof.
  intros Hlt Hin. unfold onFrame.
  destruct (estimate_view now b (fireTimeouts now st)) as [_ ->].
  apply in_or_app. left. rewrite fireTimeouts_timeouts.
  apply filter_In. split; [exact Hin|].
  unfold due. apply negb_true_iff, Z.leb_gt, Hlt.
Qed.

Lemma run_keeps_pending (t : Z) (fs : list (Z * Sample)) :
  forall st : State,
    Forall (fun f => fst f < t) fs ->
    In t (timeouts (snd st)) -> In t (timeouts (snd (run fs st))).
Proof.
  induction fs as [|[now b] fs IH]; intros st Hfs Hin; [exact Hin|].
  cbn [run]. inversion Hfs as [|? ? Hnow Hrest]; subst.
  apply IH; [exact Hrest|]. apply onFrame_keeps_pending; assumption.
Qed.

Lemma fireTimeouts_clears (t : Z) (st : State) :
  In t (timeouts (snd st)) ->
  blinkDetected (snd (fireTimeouts t st)) = false /\
  ~ In t (timeouts (snd (fireTimeouts t st))).
Proof.
  intros Hin. split.
  - destruct st as [loc v]. unfold fireTimeouts.
    assert (E : existsb (due t) (timeouts v) = true).
    { apply existsb_exists. exists t. split; [exact Hin|].
      unfold due. apply Z.leb_refl. }
    rewrite E. reflexivity.
  - rewrite fireTimeouts_timeouts. intros H. apply filter_In in H as [_ H].
    unfold due in H. rewrite Z.leb_refl in H. discriminate.
Qed.

(** Timers that are all due later than [t] do not run at [t]. *)
Lemma fireTimeouts_none (t : Z) (st : State) :
  Forall (fun d => t < d) (timeouts (snd st)) -> fireTimeouts t st = st.
Proof.
  intros H. destruct st as [loc v]. unfold fireTimeouts. cbn [snd] in H.
  replace (existsb (due t) (timeouts v)) with false; [reflexivity|].
  symmetry. apply not_true_is_false. intros E.
  apply existsb_exists in E as (d & Hin & Hd).
  rewrite Forall_forall in H. specialize (H d Hin).
  unfold due in Hd. apply Z.leb_le in Hd. lia.
Qed.

Lemma quiet_fire (k t : Z) (st : State) :
  quiet_until k st -> t < k -> fireTimeouts t st = st.
Proof.
  intros [_ Hq] Ht. apply fireTimeouts_none.
  eapply Forall_impl; [|exact Hq]. cbn. intros d Hd. lia.
Qed.

Lemma quiet_onFrame (k f : Z) (b : Sample) (st : State) :
  quiet_until k st -> f < k -> k <= f + 300 ->
  quiet_until k (onFrame f b st).
Proof.
  intros Hq Hf Hk. unfold onFrame. rewrite (quiet_fire k f st Hq Hf).
  destruct Hq as [Hb Ht].
  destruct (estimate_view f b st) as [Eb Et].
  split.
  - rewrite Eb, Hb. destruct (blinkCrossing b _); reflexivity.
  - rewrite Et. apply Forall_app. split; [exact Ht|].
    destruct (blinkCrossing b _); repeat constructor. exact Hk.
Qed.

Lemma quiet_run (k : Z) (fs : list (Z * Sample)) :
  forall st : State,
    quiet_until k st ->
    Forall (fun f => k - 300 <= fst f < k) fs ->
    quiet_until k (run fs st).
Proof.
  induction fs as [|[f b] fs IH]; intros st Hq Hfs; [exact Hq|].
  cbn [run]. inversion Hfs as [|? ? Hf Hrest]; subst. cbn [fst] in Hf.
  apply IH; [|exact Hrest]. apply quiet_onFrame; [exact Hq|lia|lia].
Qed.

(** C8, counterexample: crossings at 0 and at 200 leave the callback of
    the second pending for 500; the flag set by the crossing at 400 is
    cleared by it at 500, 100ms after being set. *)
Lemma C8_counterexample : ~ blink_lasts_300ms.
Proof.
  intros H.
  specialize (H [(0, mkSample 120 90 80); (200, mkSample 10 10 10)]
                400 500 (mkSample 120 90 80)).
  assert (F : Forall (fun f : Z * Sample => fst f <= 400)
                     [(0, mkSample 120 90 80); (200, mkSample 10 10 10)])
    by (repeat constructor; cbn; lia).
  assert (D : (15 < Qabs (totalBrightness (mkSample 120 90 80)
                          - prevTotalBrightness
                              (fst (run [(0%Z, mkSample 120 90 80);
                                         (200%Z, mkSample 10 10 10)]
                                        initial))))%Q)
    by reflexivity.
  specialize (H F D ltac:(lia)). vm_compute in H. discriminate.
Qed.

(** C8 (amended): a frame whose total brightness differs from the stored
    previous total by more than 15 sets the blink flag and becomes the
    previous total; the clearing callback it schedules for 300ms later
    stays pending whatever frames arrive before that time, and when the
    timers due at that time run, the flag is cleared and the callback is
    gone.  The flag stays set for the whole 300ms, through every frame
    that arrives in between, when no callback of an earlier crossing is
    due inside them; a callback of an earlier crossing that is due inside
    them clears the flag when it runs, before the 300ms are over. *)
Theorem C8_blink_set_and_cleared_by_first_timer
        (st : State) (now : Z) (b : Sample) (later : list (Z * Sample)) :
  (15 < Qabs (totalBrightness b - prevTotalBrightness (fst st)))%Q ->
  Forall (fun f => fst f < now + 300) later ->
  let st' := onFrame now b st in
  let st'' := run later st' in
  blinkDetected (snd st') = true /\
  prevTotalBrightness (fst st') = totalBrightness b /\
  In (now + 300) (timeouts (snd st'')) /\
  blinkDetected (snd (fireTimeouts (now + 300) st'')) = false /\
  ~ In (now + 300) (timeouts (snd (fireTimeouts (now + 300) st''))) /\
  (Forall (fun d => d <= now \/ now + 300 <= d) (timeouts (snd st)) ->
   Forall (fun f => now <= fst f) later ->
   blinkDetected (snd st'') = true /\
   forall t, t < now + 300 ->
             blinkDetected (snd (fireTimeouts t st'')) = true) /\
  (forall d, In d (timeouts (snd st)) -> now < d < now + 300 ->
             blinkDetected (snd (fireTimeouts d st')) = false).
Proof.
  intros Hdiff Hlater st' st''.
  assert (Hcross : blinkCrossing b
                     (prevTotalBrightness (fst (fireTimeouts now st))) = true).
  { rewrite fireTimeouts_locals. unfold blinkCrossing, JS.Math_abs.
    apply gt_true, Hdiff. }
  destruct (estimate_view now b (fireTimeouts now st)) as [Hb Ht].
  rewrite Hcross in Hb, Ht.
  assert (Hin : In (now + 300) (timeouts (snd st''))).
  { apply run_keeps_pending; [exact Hlater|].
    unfold st', onFrame. rewrite Ht. apply in_or_app. right. now left. }
  split; [exact Hb|]. split; [apply estimate_prev|].
  split; [exact Hin|].
  split; [apply fireTimeouts_clears, Hin|].
  split; [apply fireTimeouts_clears, Hin|]. split.
  - intros Hold Hafter.
    assert (Q' : quiet_until (now + 300) st').
    { split; [exact Hb|]. unfold st', onFrame. rewrite Ht.
      apply Forall_app. split; [|repeat constructor; lia].
      rewrite fireTimeouts_timeouts. apply Forall_forall.
      intros d Hd. apply filter_In in Hd as [Hd Hnd].
      rewrite Forall_forall in Hold. specialize (Hold d Hd).
      unfold due in Hnd. apply negb_true_iff, Z.leb_gt in Hnd. lia. }
    assert (Q'' : quiet_until (now + 300) st'').
    { apply quiet_run; [exact Q'|].
      rewrite Forall_forall in *. intros f Hf.
      specialize (Hlater f Hf). specialize (Hafter f Hf). lia. }
    split; [apply Q''|].
    intros t Hlt. rewrite (quiet_fire (now + 300) t st'' Q'' Hlt). apply Q''.
  - intros d Hd [Hlo _]. apply fireTimeouts_clears.
    apply onFrame_keeps_pending; assumption.
Qed.

(** A first frame of total 290 (the previous total starts at 0) at time
    1000, followed by frames at 1100 and 1200: the flag is set through
    1299 and cleared at 1300. *)
Lemma C8_blink_set_and_cleared_by_first_timer_witness :
  let st' := onFrame 1000 (mkSample 120 90 80) initial in
  let st'' := run [(1100, mkSample 120 90 80); (1200, mkSample 10 10 10)] st' in
  blinkDetected (snd st') = true /\
  blinkDetected (snd (fireTimeouts 1299 st'')) = true /\
  blinkDetected (snd (fireTimeouts 1300 st'')) = false.
Proof.
  destruct (C8_blink_set_and_cleared_by_first_timer
              initial 1000 (mkSample 120 90 80)
              [(1100, mkSample 120 90 80); (1200, mkSample 10 10 10)])
    as (H1 & _ & _ & H4 & _ & H6 & _).
  - reflexivity.
  - repeat constructor.
  - split; [exact H1|]. split; [|exact H4].
    apply H6; [constructor | repeat constructor; discriminate | lia].
Defined.

(** Timers overlap: each crossing schedules its own callback and none is
    cancelled, so the flag set by the frame at 400 is cleared at 500 by the
    callback of the frame at 200, while its own callback is still pending
    for 700. *)
Example earlier_timer_clears_later_blink :
  let st := run [(0, mkSample 120 90 80); (200, mkSample 10 10 10);
                 (400, mkSample 120 90 80)] initial in
  blinkDetected (snd st) = true /\
  timeouts (snd st) = [500; 700] /\
  blinkDetected (snd (fireTimeouts 500 st)) = false /\
  timeouts (snd (fireTimeouts 500 st)) = [700].
Proof. vm_compute. repeat split. Qed.

(** Only every third call of [processFrame] reaches the estimator. *)
Lemma processFrame_every_third (t1 t2 t3 : Z) (b1 b2 b3 : Sample) (st : State) :
  frameSkipCounter (fst st) = 0 ->
  processFrame t3 (Some b3)
    (processFrame t2 (Some b2) (processFrame t1 (Some b1) st))
  = estimate t3 b3 st.
Proof.
  destruct st as [[c k prev] v]. cbn [fst frameSkipCounter]. intros ->.
  reflexivity.
Qed.

Lemma processFrame_every_third_witness :
  processFrame 32 (Some (mkSample 120 90 80))
    (processFrame 16 (Some (mkSample 10 10 10))
       (processFrame 0 (Some (mkSample 10 10 10)) initial))
  = estimate 32 (mkSample 120 90 80) initial.
Proof.
  exact (processFrame_every_third
           0 16 32 (mkSample 10 10 10) (mkSample 10 10 10)
           (mkSample 120 90 80) initial eq_refl).
Defined.

End EstimatorFacts.

(** ** Frame sampler *)

Section SamplerFacts.
Import Sampler.

(** Induction over a pixel list in strides of four pixels, the way the
    loop walks its buffer. *)
Lemma stride4_ind (P : list Pixel -> Prop) :
  P [] ->
  (forall p, P [p]) ->
  (forall p a, P [p; a]) ->
  (forall p a b, P [p; a; b]) ->
  (forall p a b c rest, P rest -> P (p :: a :: b :: c :: rest)) ->
  forall ps, P ps.
Proof.
  intros H0 H1 H2 H3 H4. fix F 1. intros ps.
  destruct ps as [|p [|a [|b [|c rest]]]].
  - exact H0.
  - apply H1.
  - apply H2.
  - apply H3.
  - apply H4, F.
Qed.

Lemma buffer_length (ps : list Pixel) :
  List.length (buffer ps) = (4 * List.length ps)%nat.
Proof. induction ps as [|p ps IH]; cbn [buffer List.length]; lia. Qed.

Lemma buffer_app (ps qs : list Pixel) :
  buffer (ps ++ qs) = buffer ps ++ buffer qs.
Proof.
  induction ps as [|p ps IH]; [reflexivity|].
  cbn [app buffer]. rewrite IH. reflexivity.
Qed.

(** The three channel reads of the iteration that stands on pixel [p]. *)
Lemma get_pixel (pre : list Pixel) (p : Pixel) (rest : list Pixel) :
  let data := buffer (pre ++ p :: rest) in
  let i := (4 * List.length pre)%nat in
  get data i = Some (R p) /\
  get data (i + 1) = Some (G p) /\
  get data (i + 2) = Some (B p).
Proof.
  intros data i. subst data. unfold get. rewrite buffer_app.
  rewrite !nth_error_app2 by (rewrite buffer_length; lia).
  rewrite buffer_length. fold i.
  replace (i - i)%nat with 0%nat by lia.
  replace (i + 1 - i)%nat with 1%nat by lia.
  replace (i + 2 - i)%nat with 2%nat by lia.
  cbn [buffer nth_error]. auto.
Qed.

Lemma loop_done (fuel : nat) (data : list Z) (i : nat)
      (sum : JS.number) (count : Z) :
  (List.length data <= i)%nat -> loop fuel data i sum count = (sum, count).
Proof.
  intros H. destruct fuel; [reflexivity|]. cbn [loop].
  destruct (Nat.ltb_spec i (List.length data)); [lia | reflexivity].
Qed.

Lemma loop_step (fuel : nat) (pre : list Pixel) (p : Pixel)
      (rest : list Pixel) (s : Q) (count : Z) :
  loop (S fuel) (buffer (pre ++ p :: rest)) (4 * List.length pre)
       (JS.Fin s) count
  = loop fuel (buffer (pre ++ p :: rest)) (4 * List.length pre + 16)
         (JS.Fin (s + pixel_luma p)) (count + 1).
Proof.
  cbn [loop].
  destruct (Nat.ltb_spec (4 * List.length pre)
                         (List.length (buffer (pre ++ p :: rest)))) as [_|H].
  - destruct (get_pixel pre p rest) as (-> & -> & ->). reflexivity.
  - rewrite buffer_length, length_app in H. cbn [List.length] in H. lia.
Qed.

(** Fewer than four pixels are left: one iteration, then the index is past
    the end. *)
Ltac last_iteration fuel Hfuel :=
  destruct fuel as [|fuel]; [cbn in Hfuel; lia|];
  rewrite loop_step;
  rewrite loop_done by (rewrite buffer_length, length_app; cbn; lia);
  reflexivity.

(** The loop from the iteration that stands on the first pixel of [rest]:
    it adds the luma of every 4th pixel of [rest] and counts them. *)
Lemma loop_spec (rest : list Pixel) :
  forall (fuel : nat) (pre : list Pixel) (s : Q) (count : Z),
    (List.length rest <= fuel)%nat ->
    loop fuel (buffer (pre ++ rest)) (4 * List.length pre) (JS.Fin s) count
    = (JS.Fin (fold_left Qplus (map pixel_luma (every4th rest)) s),
       (count + Z.of_nat (List.length (every4th rest)))%Z).
Proof.
  induction rest as [|p|p a|p a b|p a b c rest IH] using stride4_ind;
    intros fuel pre s count Hfuel.
  - rewrite loop_done by (rewrite buffer_length, length_app; cbn; lia).
    cbn. rewrite Z.add_0_r. reflexivity.
  - last_iteration fuel Hfuel.
  - last_iteration fuel Hfuel.
  - last_iteration fuel Hfuel.
  - destruct fuel as [|fuel]; [cbn in Hfuel; lia|].
    rewrite loop_step.
    replace (pre ++ p :: a :: b :: c :: rest)
      with ((pre ++ [p; a; b; c]) ++ rest)
      by (rewrite <- app_assoc; reflexivity).
    replace (4 * List.length pre + 16)%nat
      with (4 * List.length (pre ++ [p; a; b; c]))%nat
      by (rewrite length_app; cbn [List.length]; lia).
    rewrite IH by (cbn [List.length] in Hfuel; lia).
    cbn [every4th map fold_left List.length].
    rewrite Nat2Z.inj_succ. f_equal. lia.
Qed.

Lemma fold_left_Qplus (l : list Q) :
  forall s : Q, (fold_left Qplus l s == s + Qsum l)%Q.
Proof.
  induction l as [|x l IH]; intros s; cbn [fold_left Qsum fold_right].
  - lra.
  - rewrite IH. fold (Qsum l). lra.
Qed.

Lemma luma_range (p : Pixel) :
  pixel_ok p -> (0 <= pixel_luma p <= 255)%Q.
Proof.
  unfold pixel_ok, byte_range, pixel_luma, luma.
  intros ((r0 & r1) & (g0 & g1) & (b0 & b1) & _).
  rewrite Zle_Qle in r0, r1, g0, g1, b0, b1.
  change (inject_Z 0) with 0%Q in *. change (inject_Z 255) with 255%Q in *.
  split; lra.
Qed.

Lemma every4th_Forall (P : Pixel -> Prop) (ps : list Pixel) :
  Forall P ps -> Forall P (every4th ps).
Proof.
  induction ps as [|p|p a|p a b|p a b c rest IH] using stride4_ind;
    intros H; cbn [every4th].
  - constructor.
  - exact H.
  - inversion H; subst. repeat constructor; assumption.
  - inversion H; subst. repeat constructor; assumption.
  - inversion H as [|? ? Hp H1]; subst.
    inversion H1 as [|? ? _ H2]; subst.
    inversion H2 as [|? ? _ H3]; subst.
    inversion H3 as [|? ? _ H4]; subst.
    constructor; [exact Hp | apply IH, H4].
Qed.

(** A sum of [n] lumas lies between 0 and [255 n]. *)
Lemma Qsum_luma_range (ps : list Pixel) :
  Forall pixel_ok ps ->
  (0 <= Qsum (map pixel_luma ps)
   /\ Qsum (map pixel_luma ps) <= 255 * inject_Z (Z.of_nat (List.length ps)))%Q.
Proof.
  induction ps as [|p ps IH]; intros H.
  - cbn [map Qsum fold_right List.length Z.of_nat].
    change (inject_Z 0) with 0%Q. split; lra.
  - inversion H as [|? ? Hp Hps]; subst.
    destruct (IH Hps) as [I0 I1]. destruct (luma_range p Hp) as [L0 L1].
    cbn [map Qsum fold_right List.length]. fold (Qsum (map pixel_luma ps)).
    rewrite Nat2Z.inj_succ. unfold Z.succ. rewrite inject_Z_plus.
    change (inject_Z 1) with 1%Q. split; lra.
Qed.

(** What the loop of [calculateBrightness] returns on an RGBA buffer. *)
Lemma loop_buffer (ps : list Pixel) :
  loop (List.length (buffer ps)) (buffer ps) 0 (JS.Fin 0) 0
  = (JS.Fin (fold_left Qplus (map pixel_luma (every4th ps)) 0%Q),
     Z.of_nat (List.length (every4th ps))).
Proof.
  pose proof (loop_spec ps (List.length (buffer ps)) [] 0%Q 0%Z) as H.
  cbn [app] in H. change (4 * List.length (@nil Pixel))%nat with 0%nat in H.
  rewrite H; [reflexivity|].
  rewrite buffer_length. lia.
Qed.

Lemma every4th_nonempty (p : Pixel) (ps : list Pixel) :
  (0 < List.length (every4th (p :: ps)))%nat.
Proof. cbn [every4th List.length]. lia. Qed.

(** No sample is taken exactly when the count stays 0, and then the
    answer is 0. *)
Lemma calculateBrightness_no_sample (data : list Z) :
  snd (loop (List.length data) data 0 (JS.Fin 0) 0) = 0%Z ->
  calculateBrightness data = JS.Fin 0.
Proof.
  unfold calculateBrightness.
  destruct (loop (List.length data) data 0 (JS.Fin 0) 0) as [sum count].
  cbn [snd]. intros ->. reflexivity.
Qed.

(** C9: on the RGBA buffer of pixels with channels in [0, 255],
    [calculateBrightness] returns a finite number, equal to the mean of
    [0.299 R + 0.587 G + 0.114 B] over every 4th pixel, and between 0 and
    255; on the empty buffer, and whenever no sample was counted, it
    returns 0. *)
Theorem C9_brightness_is_mean_in_range (ps : list Pixel) :
  Forall pixel_ok ps ->
  (exists m : Q,
      calculateBrightness (buffer ps) = JS.Fin m /\
      (m == spec_brightness ps)%Q /\
      (0 <= m <= 255)%Q) /\
  calculateBrightness [] = JS.Fin 0 /\
  (forall data : list Z,
      snd (loop (List.length data) data 0 (JS.Fin 0) 0) = 0%Z ->
      calculateBrightness data = JS.Fin 0).
Proof.
  intros Hok. split; [|split; [reflexivity | exact calculateBrightness_no_sample]].
  unfold calculateBrightness. rewrite loop_buffer.
  destruct ps as [|p ps].
  - exists 0%Q. cbn. repeat split; try reflexivity; lra.
  - pose proof (every4th_nonempty p ps) as Hn.
    pose proof (every4th_Forall pixel_ok (p :: ps) Hok) as Hok4.
    pose proof (Qsum_luma_range _ Hok4) as [S0 S1].
    unfold spec_brightness, mean.
    remember (every4th (p :: ps)) as l eqn:El.
    destruct l as [|q l]; [cbn in Hn; lia|].
    assert (Hz : (0 < Z.of_nat (List.length (q :: l)))%Z) by lia.
    apply Z.ltb_lt in Hz as Hzb. rewrite Hzb.
    assert (Hq : (0 < inject_Z (Z.of_nat (List.length (q :: l))))%Q).
    { rewrite Zlt_Qlt in Hz. exact Hz. }
    eexists. split; [reflexivity|].
    rewrite length_map.
    assert (E : (fold_left Qplus (map pixel_luma (q :: l)) 0
                 == Qsum (map pixel_luma (q :: l)))%Q).
    { rewrite fold_left_Qplus. lra. }
    split; [|split].
    + cbn [map] in *. apply Qdiv_comp; [exact E | reflexivity].
    + apply Qle_shift_div_l; [exact Hq|]. rewrite E. lra.
    + apply Qle_shift_div_r; [exact Hq|]. rewrite E. exact S1.
Qed.

(** Five pixels: the first and the fifth are sampled. *)
Lemma C9_brightness_is_mean_in_range_witness :
  exists m : Q,
    calculateBrightness
      (buffer [mkPixel 255 255 255 255; mkPixel 1 2 3 255;
               mkPixel 4 5 6 255; mkPixel 7 8 9 255; mkPixel 0 0 0 255])
    = JS.Fin m /\
    (m == 255 / 2)%Q /\ (0 <= m <= 255)%Q.
Proof.
  destruct (C9_brightness_is_mean_in_range
              [mkPixel 255 255 255 255; mkPixel 1 2 3 255;
               mkPixel 4 5 6 255; mkPixel 7 8 9 255; mkPixel 0 0 0 255])
    as [(m & Hm & Hspec & Hrange) _].
  - repeat constructor; cbn; discriminate.
  - exists m. split; [exact Hm|]. split; [|exact Hrange].
    rewrite Hspec. reflexivity.
Defined.

End SamplerFacts.

(** ** Polling session: how long the circuit breaker takes *)

Section BreakerTiming.
Import Session.

Lemma bothFailed_paced (T now : Z) (rt : bool) (s : State) :
  paced T s -> (T <= now <= T + 25000)%Z -> paced T (bothFailed now rt s).
Proof.
  unfold paced, bothFailed. intros (Hc & Hr & Hl) Hnow.
  destruct (Z.ltb_spec 5 (errorCount s)) as [H5|H5]; [lia|].
  destruct (Z.ltb_spec 5000 (now - lastErrorTime s)) as [Hgap|Hgap];
    cbn [connected errorCount lastErrorTime].
  - split; [exact Hc|]. split; [lia|]. intros _.
    destruct (Z.eq_dec (errorCount s) 0) as [E0|N0]; [lia|].
    specialize (Hl ltac:(lia)). lia.
  - auto.
Qed.

Lemma poll_paced (T : Z) (p : Poll) (s : State) :
  paced T s -> throws p = false -> (T <= at_time p <= T + 25000)%Z ->
  paced T (poll p s).
Proof.
  intros Hp Ht Hnow.
  pose proof (bothFailed_paced T (at_time p) (reset_throws p) s Hp Hnow) as B.
  assert (A : forall d, paced T (adopt d s)).
  { intros d. destruct Hp as (Hc & _ & _). unfold paced, adopt.
    cbn [connected errorCount lastErrorTime]. split; [exact Hc|].
    split; lia. }
  destruct Hp as (Hc & _). revert Ht.
  unfold throws, poll, fetchData, tryMentalState, rejects. rewrite Hc.
  destruct (primary_reply p) as [| | |d]; try discriminate;
    [|destruct (negb (error d)); [intros _; apply A|]];
    (destruct (secondary_reply p) as [| | |ms]; try discriminate; intros _;
     [exact B | destruct (success ms), (data ms); first [apply A | exact B]]).
Qed.

(** When the calls of [fetchData] do not overlap (each one runs to its end
    and is rendered before the next starts, as in [Session.polls]), and on
    the paths that do not throw, the breaker cannot fire on polls that all
    fall within 25 seconds of each other, once the counter has been 0: the
    session stays connected and the counter stays at or below 5. *)
Theorem breaker_needs_more_than_25s (T : Z) (ps : list Poll) (s : State) :
  connected s = true ->
  errorCount s = 0%Z ->
  Forall (fun p => throws p = false /\ (T <= at_time p <= T + 25000)%Z) ps ->
  connected (polls ps s) = true /\ (errorCount (polls ps s) <= 5)%Z.
Proof.
  intros Hc H0 Hps.
  assert (Hp : paced T s) by (unfold paced; rewrite H0; repeat split; auto; lia).
  clear Hc H0. revert s Hp.
  induction Hps as [|p ps [Ht Hnow] _ IH]; intros s Hp.
  - destruct Hp as (Hc & Hr & _). cbn. split; [exact Hc | lia].
  - rewrite polls_cons. apply IH, poll_paced; assumption.
Qed.

Lemma breaker_needs_more_than_25s_witness :
  let ps := map failing [10000; 10200; 15001; 20002; 25003; 30004; 35000]%Z in
  connected (polls ps justConnected) = true /\
  (errorCount (polls ps justConnected) <= 5)%Z.
Proof.
  apply (breaker_needs_more_than_25s 10000).
  - reflexivity.
  - reflexivity.
  - repeat constructor; cbn; discriminate.
Defined.

(** *** Calls in flight at the same time *)

(** A call whose closure was created by the render of the current state
    is a call of [Session.bothFailed]. *)
Lemma bothFailedFrom_current (now : Z) (rt : bool) (s : State) :
  bothFailedFrom s now rt s = bothFailed now rt s.
Proof. reflexivity. Qed.

(** The rate limit does not hold across calls that overlap: two calls
    created by the same render, both ending with both endpoints failed,
    the first more than 5000ms after the [lastErrorTime] of that render,
    each raise the counter, however close together they end; the breaker
    does not fire in either, since both read the [errorCount] of the
    render. *)
Theorem overlapping_calls_escape_rate_limit
        (render : State) (t1 t2 : Z) (rt : bool) :
  (errorCount render <= 5)%Z ->
  (5000 < t1 - lastErrorTime render)%Z ->
  (t1 <= t2)%Z ->
  let s1 := bothFailedFrom render t1 rt render in
  let s2 := bothFailedFrom render t2 rt s1 in
  errorCount s1 = (errorCount render + 1)%Z /\
  errorCount s2 = (errorCount render + 2)%Z /\
  lastErrorTime s1 = t1 /\ lastErrorTime s2 = t2 /\
  connected s2 = connected render.
Proof.
  intros H5 H1 H12. unfold bothFailedFrom.
  replace (5 <? errorCount render)%Z with false
    by (symmetry; apply Z.ltb_ge, H5).
  replace (5000 <? t1 - lastErrorTime render)%Z with true
    by (symmetry; apply Z.ltb_lt, H1).
  replace (5000 <? t2 - lastErrorTime render)%Z with true
    by (symmetry; apply Z.ltb_lt; lia).
  cbn [errorCount lastErrorTime connected]. repeat split. lia.
Qed.

(** Two calls started 200ms apart right after connecting, both answered
    with failures after 6 seconds: the counter goes from 0 to 2 within
    200ms. *)
Lemma overlapping_calls_escape_rate_limit_witness :
  errorCount (bothFailedFrom justConnected 6200 false
                (bothFailedFrom justConnected 6000 false justConnected))
  = 2%Z.
Proof.
  apply (overlapping_calls_escape_rate_limit justConnected 6000 6200 false);
    vm_compute; congruence.
Defined.

(** Seven answered failures, each more than 5 seconds after the one
    before, are what the breaker takes from a fresh counter: six of them
    raise the counter to 6, and the seventh, the first to start with a
    counter above 5, resets the session. *)
Theorem breaker_fires_on_seventh_failure
        (t1 t2 t3 t4 t5 t6 t7 : Z) (s : State) :
  connected s = true ->
  errorCount s = 0%Z ->
  (5000 < t1 - lastErrorTime s)%Z ->
  (5000 < t2 - t1)%Z -> (5000 < t3 - t2)%Z -> (5000 < t4 - t3)%Z ->
  (5000 < t5 - t4)%Z -> (5000 < t6 - t5)%Z ->
  let six := polls (map failing [t1; t2; t3; t4; t5; t6]) s in
  let seven := poll (failing t7) six in
  connected six = true /\ errorCount six = 6%Z /\
  connected seven = false /\ brainData seven = None /\
  errorCount seven = 0%Z.
Proof.
  intros Hc H0 G1 G2 G3 G4 G5 G6.
  destruct s as [c b e l]. cbn [connected errorCount lastErrorTime] in *.
  subst c e.
  assert (Step : forall n L b' t,
             (5000 < t - L)%Z -> (n <= 5)%Z ->
             poll (failing t) (mkState true b' n L)
             = mkState true b' (n + 1) t).
  { intros n L b' t Hg Hn. unfold poll, failing, fetchData, tryMentalState,
      bothFailed. cbn [connected primary_reply secondary_reply at_time
                       reset_throws errorCount lastErrorTime brainData].
    apply Z.ltb_lt in Hg. rewrite Hg.
    destruct (Z.ltb_spec 5 n); [lia | reflexivity]. }
  cbn [map]. unfold polls. cbn [fold_left].
  rewrite !Step by lia. cbn [Z.add Pos.add Pos.succ].
  repeat split.
Qed.

Lemma breaker_fires_on_seventh_failure_witness :
  let six := polls (map failing [6000; 12000; 18000; 24000; 30000; 36000]%Z)
                   justConnected in
  let seven := poll (failing 36200) six in
  connected six = true /\ errorCount six = 6%Z /\
  connected seven = false /\ brainData seven = None /\
  errorCount seven = 0%Z.
Proof.
  apply (breaker_fires_on_seventh_failure
           6000 12000 18000 24000 30000 36000 36200 justConnected);
    reflexivity.
Defined.

End BreakerTiming.

(** ** The history of the graph *)

Section HistoryFacts.
Import History.

Lemma slice1_push {A : Type} (arr : list A) (x : A) :
  arr <> [] -> slice1 arr ++ [x] = skipn 1 (arr ++ [x]).
Proof. destruct arr as [|a arr]; [congruence | reflexivity]. Qed.

(** Pushing the values [xs] one by one through a non-empty window keeps
    its length and leaves the last [length arr] points of [arr ++ xs]. *)
Lemma window_pushes {A : Type} (xs : list A) :
  forall arr : list A,
    arr <> [] ->
    fold_left (fun w x => slice1 w ++ [x]) xs arr
    = skipn (List.length xs) (arr ++ xs).
Proof.
  induction xs as [|x xs IH]; intros arr Hne.
  - cbn. rewrite app_nil_r. reflexivity.
  - destruct arr as [|a arr]; [congruence|].
    cbn [fold_left List.length slice1 tl]. rewrite IH.
    + cbn [app skipn]. rewrite <- app_assoc. reflexivity.
    + destruct arr; cbn; congruence.
Qed.

Lemma draws_series (ds : list BrainData) :
  forall h : DataHistory,
    left (draws ds h)
    = fold_left (fun w x => slice1 w ++ [x]) (lefts ds) (left h) /\
    right (draws ds h)
    = fold_left (fun w x => slice1 w ++ [x]) (rights ds) (right h).
Proof.
  induction ds as [|[l r st bl ep] ds IH]; intros h; [split; reflexivity|].
  unfold draws. cbn [fold_left lefts rights map]. apply IH.
Qed.

(** After any number of drawings each series of the graph still has 50
    points: the last 50 of the fifty initial 0.5 followed by every scalar
    drawn so far, in order. *)
Theorem history_holds_last_50 (ds : list BrainData) :
  let h := draws ds initial in
  left h = skipn (List.length ds) (repeat 0.5%Q 50 ++ lefts ds) /\
  right h = skipn (List.length ds) (repeat 0.5%Q 50 ++ rights ds) /\
  List.length (left h) = 50%nat /\ List.length (right h) = 50%nat.
Proof.
  intros h. destruct (draws_series ds initial) as [El Er]. fold h in El, Er.
  assert (Hl : left h = skipn (List.length ds) (repeat 0.5%Q 50 ++ lefts ds)).
  { rewrite El, window_pushes by discriminate.
    unfold lefts. rewrite length_map. reflexivity. }
  assert (Hr : right h = skipn (List.length ds) (repeat 0.5%Q 50 ++ rights ds)).
  { rewrite Er, window_pushes by discriminate.
    unfold rights. rewrite length_map. reflexivity. }
  split; [exact Hl|]. split; [exact Hr|].
  rewrite Hl, Hr, !length_skipn, !length_app, repeat_length.
  unfold lefts, rights. rewrite !length_map. lia.
Qed.

(** A window that was empty would grow: the slide keeps the length only
    of a window that holds at least one point. *)
Lemma window_length {A : Type} (arr : list A) (x : A) :
  List.length (slice1 arr ++ [x]) = Nat.max 1 (List.length arr).
Proof. destruct arr as [|a arr]; cbn; rewrite ?length_app; cbn; lia. Qed.

End HistoryFacts.

(** ** Status check, connect button and eye-data poll *)

Section SimpleBrainFacts.
Import SimpleBrain.

Lemma checkBackend_frame (r : StatusReply) (s : State) :
  let s' := checkBackend r s in
  (Session.connected (session s) = true ->
   Session.connected (session s') = true) /\
  Session.brainData (session s') = Session.brainData (session s) /\
  Session.errorCount (session s') = Session.errorCount (session s) /\
  Session.lastErrorTime (session s') = Session.lastErrorTime (session s) /\
  eyePosition s' = eyePosition s /\ blinkDetected s' = blinkDetected s /\
  alerts s' = alerts s.
Proof.
  destruct r as [|ok [body|]]; cbn; auto 10.
  destruct (connected body && negb (Session.connected (session s)));
    cbn; auto 10.
Qed.

(** The status check never disconnects: through any sequence of replies a
    connected session stays connected, and the brain data, the error
    counter and the recorded error time are never written. *)
Theorem status_check_never_disconnects (rs : list StatusReply) (s : State) :
  let s' := statusChecks rs s in
  (Session.connected (session s) = true ->
   Session.connected (session s') = true) /\
  Session.brainData (session s') = Session.brainData (session s) /\
  Session.errorCount (session s') = Session.errorCount (session s) /\
  Session.lastErrorTime (session s') = Session.lastErrorTime (session s).
Proof.
  revert s. induction rs as [|r rs IH]; intros s; [cbn; auto|].
  change (statusChecks (r :: rs) s) with (statusChecks rs (checkBackend r s)).
  destruct (checkBackend_frame r s) as (C & B & E & L & _).
  destruct (IH (checkBackend r s)) as (C' & B' & E' & L').
  cbn zeta in *. repeat split; try congruence. auto.
Qed.

(** A reset does not outlive the next status check that still reports a
    connection: whatever the session was, after [handleReset] and one such
    reply it is connected again, with no brain data and a counter of 0, so
    the polling starts over. *)
Theorem status_check_reconnects_after_reset
        (s : State) (resetThrows ok real : bool) :
  let s1 := withSession s (Session.handleReset resetThrows (session s)) in
  let s2 := checkBackend (StatusResponse ok (Some (mkStatusBody real true))) s1 in
  Session.connected (session s1) = false /\
  Session.connected (session s2) = true /\
  Session.brainData (session s2) = None /\
  Session.errorCount (session s2) = 0%Z /\
  backendStatus s2 = Some ok.
Proof.
  destruct resetThrows; cbn; auto.
Qed.

Lemma connectAttempts_already (k : nat) :
  forall (now : Z) (rest : list (ConnectReply * bool)) (s : State),
    connectAttempts now (repeat alreadyConnected k ++ rest) s
    = (fst (connectAttempts (now + 1000 * Z.of_nat k) rest
              (if (0 <? k)%nat
               then withSession s (Session.handleReset false (session s))
               else s)),
       map (fun i => (now + 1000 * Z.of_nat i)%Z) (seq 0 k)
       ++ snd (connectAttempts (now + 1000 * Z.of_nat k) rest
                 (if (0 <? k)%nat
                  then withSession s (Session.handleReset false (session s))
                  else s))).
Proof.
  induction k as [|k IH]; intros now rest s.
  - cbn [repeat app seq map Nat.ltb Nat.leb Z.of_nat].
    rewrite Z.mul_0_r, Z.add_0_r.
    destruct (connectAttempts now rest s). reflexivity.
  - cbn [repeat app connectAttempts alreadyConnected connect].
    rewrite IH.
    replace (now + 1000 + 1000 * Z.of_nat k)%Z
      with (now + 1000 * Z.of_nat (S k))%Z by lia.
    set (s1 := withSession s (Session.handleReset false (session s))).
    assert (E : (if (0 <? k)%nat
                 then withSession s1 (Session.handleReset false (session s1))
                 else s1) = s1).
    { destruct (0 <? k)%nat; [|reflexivity]. destruct s; reflexivity. }
    rewrite E. cbn [Nat.ltb Nat.leb fst snd].
    f_equal. cbn [seq map app]. f_equal; [lia|]. f_equal.
    rewrite <- seq_shift, map_map. apply map_ext. intros i. lia.
Qed.

(** The retry on 'already_connected' has no bound: as long as the backend
    answers 'already_connected', one click keeps resetting and asking again
    every 1000ms; [k] such answers followed by an ok make [k + 1] requests,
    at [now], [now + 1000], ..., and leave the session connected with a
    counter of 0. *)
Theorem already_connected_retries_without_bound
        (k : nat) (now : Z) (s : State) :
  let replies := repeat alreadyConnected k ++ [(ConnectOk, false)] in
  let s' := fst (connectAttempts now replies s) in
  snd (connectAttempts now replies s)
  = map (fun i => (now + 1000 * Z.of_nat i)%Z) (seq 0 (S k)) /\
  Session.connected (session s') = true /\
  Session.errorCount (session s') = 0%Z /\
  ((0 < k)%nat -> Session.brainData (session s') = None).
Proof.
  intros replies s'. subst s' replies. rewrite connectAttempts_already.
  cbn [connectAttempts connect fst snd].
  split.
  - rewrite seq_S, map_app. reflexivity.
  - destruct k; cbn; auto. repeat split; intros; lia.
Qed.

(** The two halves of a polling cycle fail independently: the session
    after the cycle is the session after [fetchData] alone, whatever the
    eye-data request does, and the eye state is what [fetchEyeData] alone
    gives, whatever [fetchData] did, even when it has just reset the
    session; an eye-data request that fails in any way changes nothing. *)
Theorem polling_halves_independent
        (p : Session.Poll) (eye : Session.Reply EyeBody) (s : State) :
  Session.connected (session s) = true ->
  let s' := fetchBothData p eye s in
  session s' = Session.poll p (session s) /\
  eyePosition s' = eyePosition (fetchEyeData true eye s) /\
  blinkDetected s' = blinkDetected (fetchEyeData true eye s) /\
  alertness s' = alertness (fetchEyeData true eye s) /\
  ((forall d, eye <> Session.Json (mkEyeBody true (Some d))) ->
   fetchEyeData true eye s = s).
Proof.
  intros Hc s'. subst s'. unfold fetchBothData. rewrite Hc.
  unfold fetchEyeData. cbn [negb].
  destruct eye as [| | |[ok [d|]]]; [| | |destruct ok|destruct ok];
    cbn; repeat split; try reflexivity;
    try (destruct s; reflexivity).
  intros H. exfalso. apply (H d). reflexivity.
Qed.

Lemma polling_halves_independent_witness :
  let s := withSession initial (Session.mkState true None 6 0) in
  let s' := fetchBothData (Session.failing 100)
              (Session.Json (mkEyeBody true (Some (mkEyeData EyeLeft true None))))
              s in
  Session.connected (session s') = false /\ eyePosition s' = EyeLeft.
Proof.
  pose proof (polling_halves_independent
                (Session.failing 100)
                (Session.Json (mkEyeBody true (Some (mkEyeData EyeLeft true None))))
                (withSession initial (Session.mkState true None 6 0))
                eq_refl) as (Hs & He & _).
  cbn zeta. rewrite Hs, He. split; reflexivity.
Defined.

End SimpleBrainFacts.

(** ** The camera effect *)

Section CameraFacts.
Import Camera.

Lemma stopTracks_In (x st : Stream) (l : list Stream) :
  In x (stopTracks st l) <-> In x l /\ x <> st.
Proof.
  unfold stopTracks. rewrite filter_In, negb_true_iff, Nat.eqb_neq.
  reflexivity.
Qed.

Lemma cleanup_In (x : Stream) (s : State) :
  In x (cleanup s) <-> In x (live s) /\ closedOver s <> Some x.
Proof.
  unfold cleanup. destruct (closedOver s) as [st|].
  - rewrite stopTracks_In. split; intros [H1 H2]; split; auto; congruence.
  - split; [intros H; split; [exact H | discriminate] | tauto].
Qed.

(** Turning the camera off while a stream is held stops every track of
    that stream and forgets it. *)
Theorem toggle_off_releases (s : State) (st : Stream) :
  webcamActive s = true -> videoStream s = Some st ->
  let s' := step Toggle s in
  webcamActive s' = false /\ videoStream s' = None /\ ~ In st (live s').
Proof.
  intros Ha Hv. cbn [step]. unfold effect. rewrite Ha, Hv.
  cbn [negb webcamActive videoStream live]. repeat split.
  rewrite stopTracks_In. tauto.
Qed.

Lemma toggle_off_releases_witness :
  let s' := step Toggle (steps [Toggle; Granted 7%nat] mounted) in
  webcamActive s' = false /\ videoStream s' = None /\ ~ In 7%nat (live s').
Proof.
  exact (toggle_off_releases (steps [Toggle; Granted 7%nat] mounted) 7%nat
                             eq_refl eq_refl).
Defined.

(** The teardown does not release a camera that was turned on from rest:
    the cleanup belongs to the run that made the request and closed over
    no stream, so the stream granted afterwards keeps running when the
    component unmounts. *)
Theorem unmount_leaves_stream_running (s : State) (st : Stream) :
  webcamActive s = false -> videoStream s = None ->
  let s1 := step (Granted st) (step Toggle s) in
  webcamActive s1 = true /\ videoStream s1 = Some st /\
  In st (live (step Unmount s1)).
Proof.
  intros Ha Hv. cbn [step]. unfold effect, cleanup.
  rewrite Ha, Hv. cbn. auto.
Qed.

Lemma unmount_leaves_stream_running_witness :
  In 7%nat (live (step Unmount (step (Granted 7%nat) (step Toggle mounted)))).
Proof.
  exact (proj2 (proj2 (unmount_leaves_stream_running mounted 7%nat
                         eq_refl eq_refl))).
Defined.

(** Turning the camera off before the permission request settles does not
    cancel it: the stream granted afterwards is held and runs although
    [webcamActive] is false and nothing is pending. *)
Theorem late_grant_runs_while_off (s : State) (st : Stream) :
  webcamActive s = false -> videoStream s = None -> requests s = 0%nat ->
  let s' := step (Granted st) (step Toggle (step Toggle s)) in
  webcamActive s' = false /\ requests s' = 0%nat /\
  videoStream s' = Some st /\ In st (live s').
Proof.
  intros Ha Hv Hr. destruct s as [a v c r l].
  cbn [webcamActive videoStream requests] in Ha, Hv, Hr. subst a v r.
  unfold step, effect.
  cbn [negb webcamActive videoStream closedOver requests live Nat.pred].
  repeat split. left. reflexivity.
Qed.

Lemma late_grant_runs_while_off_witness :
  let s' := step (Granted 7%nat) (step Toggle (step Toggle mounted)) in
  webcamActive s' = false /\ requests s' = 0%nat /\
  videoStream s' = Some 7%nat /\ In 7%nat (live s').
Proof.
  exact (late_grant_runs_while_off mounted 7%nat eq_refl eq_refl eq_refl).
Defined.

Lemma effect_orphaned (st : Stream) (s : State) :
  orphaned st s -> orphaned st (effect s).
Proof.
  unfold orphaned, effect. intros (Hin & Hv & Hc).
  assert (Hcl : In st (cleanup s)) by (apply cleanup_In; auto).
  destruct (webcamActive s), (videoStream s) as [held|];
    cbn [live videoStream closedOver]; repeat split; auto; try discriminate.
  apply stopTracks_In. split; [exact Hcl | congruence].
Qed.

Lemma step_orphaned (st : Stream) (e : Event) (s : State) :
  e <> Granted st -> orphaned st s -> orphaned st (step e s).
Proof.
  intros Hne Ho. destruct e as [|st'| |]; cbn [step].
  - apply effect_orphaned. exact Ho.
  - destruct Ho as (Hin & Hv & Hc). unfold orphaned.
    cbn [live videoStream closedOver]. repeat split; auto.
    + right. exact Hin.
    + congruence.
  - destruct (webcamActive s); [apply effect_orphaned|]; exact Ho.
  - destruct Ho as (Hin & Hv & Hc). unfold orphaned.
    cbn [live videoStream closedOver]. repeat split; auto; [|discriminate].
    apply cleanup_In. auto.
Qed.

(** A stream that is running but neither held nor closed over by the
    registered cleanup is never stopped, whatever toggles, grants, denials
    and teardown follow. *)
Theorem orphaned_stream_never_stopped
        (st : Stream) (es : list Event) (s : State) :
  orphaned st s -> fresh st es -> In st (live (steps es s)).
Proof.
  intros Ho Hf. revert s Ho.
  induction Hf as [|e es He _ IH]; intros s Ho; [apply Ho|].
  change (steps (e :: es) s) with (steps es (step e s)).
  apply IH, step_orphaned; assumption.
Qed.

Lemma toggle_on_requests (c : option Stream) (r : nat) (l : list Stream) :
  step Toggle (mkState false None c r l)
  = mkState true None None (S r) (cleanup (mkState true None c r l)).
Proof. reflexivity. Qed.

Lemma toggle_off_idle (c : option Stream) (r : nat) (l : list Stream) :
  step Toggle (mkState true None c r l)
  = mkState false None None r (cleanup (mkState false None c r l)).
Proof. reflexivity. Qed.

(** Two requests in flight orphan the first stream: after on, off, on and
    two grants the first stream is orphaned. *)
Lemma second_grant_orphans_first (s : State) (st1 st2 : Stream) :
  webcamActive s = false -> videoStream s = None -> st1 <> st2 ->
  orphaned st1
    (steps [Toggle; Toggle; Toggle; Granted st1; Granted st2] s).
Proof.
  intros Ha Hv Hne. destruct s as [a v c r l].
  cbn [webcamActive videoStream] in Ha, Hv. subst a v.
  unfold steps. cbn [fold_left].
  rewrite toggle_on_requests. set (l1 := cleanup _).
  rewrite toggle_off_idle.
  change (cleanup (mkState false None None (S r) l1)) with l1.
  rewrite toggle_on_requests.
  change (cleanup (mkState true None None r l1)) with l1.
  cbn [step webcamActive videoStream closedOver requests live].
  unfold orphaned. cbn [live videoStream closedOver].
  split; [right; left; reflexivity|]. split; [congruence | discriminate].
Qed.

Lemma orphaned_stream_never_stopped_witness :
  In 1%nat (live (steps [Toggle; Unmount]
                (steps [Toggle; Toggle; Toggle; Granted 1%nat; Granted 2%nat]
                       mounted))).
Proof.
  apply (orphaned_stream_never_stopped 1%nat [Toggle; Unmount]).
  - apply second_grant_orphans_first; [reflexivity | reflexivity | discriminate].
  - repeat constructor; discriminate.
Defined.

End CameraFacts.

(** ** Blink counter *)

Section BlinkCounterFacts.
Import BlinkCounter.
Variable toLowerCase : string -> string.

Lemma effect_counts (now : Z) (p : Props) (s : State) :
  let s' := effect toLowerCase now p s in
  let l := if counts toLowerCase "left" (now, p) then 1%Z else 0%Z in
  let r := if counts toLowerCase "right" (now, p) then 1%Z else 0%Z in
  rightBlinks s' = (rightBlinks s + l)%Z /\
  leftBlinks s' = (leftBlinks s + r)%Z /\
  totalBlinks s' = (totalBlinks s + l + r)%Z.
Proof.
  unfold effect, counts. cbn [fst snd].
  destruct (isConnected p), (isWebcam (detectionMode p)); cbn [negb orb andb];
    try (repeat split; lia).
  destruct (mentalState p) as [m|]; [|repeat split; lia].
  destruct (JS.gt (confidence m) 0.6); cbn [andb]; [|repeat split; lia].
  destruct (String.eqb_spec (toLowerCase (state m)) "left") as [E|N].
  - rewrite E. cbn. repeat split; lia.
  - destruct (String.eqb (toLowerCase (state m)) "right");
      cbn; repeat split; lia.
Qed.

(** Through any sequence of effect runs the total is the sum of the two
    eye counters; the right-eye counter is the number of runs that saw a
    connected webcam session reporting state 'left' (in any letter case)
    with confidence above 0.6, and the left-eye counter the number of such
    runs reporting 'right'. *)
Theorem blink_counters_add_up (runs : list (Z * Props)) :
  let s := effects toLowerCase runs initial in
  totalBlinks s = (leftBlinks s + rightBlinks s)%Z /\
  rightBlinks s = tally toLowerCase "left" runs /\
  leftBlinks s = tally toLowerCase "right" runs.
Proof.
  assert (G : forall s0,
             let s := effects toLowerCase runs s0 in
             rightBlinks s = (rightBlinks s0 + tally toLowerCase "left" runs)%Z /\
             leftBlinks s = (leftBlinks s0 + tally toLowerCase "right" runs)%Z /\
             totalBlinks s
             = (totalBlinks s0 + tally toLowerCase "left" runs
                + tally toLowerCase "right" runs)%Z).
  { induction runs as [|[now p] runs IH]; intros s0.
    - unfold tally. cbn. repeat split; lia.
    - change (effects toLowerCase ((now, p) :: runs) s0)
        with (effects toLowerCase runs (effect toLowerCase now p s0)).
      destruct (IH (effect toLowerCase now p s0)) as (R & L & T).
      destruct (effect_counts now p s0) as (R0 & L0 & T0).
      cbn zeta in *. rewrite R, L, T, R0, L0, T0.
      unfold tally. cbn [filter].
      destruct (counts toLowerCase "left" (now, p));
        destruct (counts toLowerCase "right" (now, p));
        cbn [List.length]; rewrite ?Nat2Z.inj_succ; repeat split; lia. }
  destruct (G initial) as (R & L & T). cbn zeta in *.
  cbn [initial rightBlinks leftBlinks totalBlinks] in R, L, T.
  rewrite R, L, T. repeat split; lia.
Qed.

End BlinkCounterFacts.

(** ** Error log *)

Section ErrorLogFacts.
Import ErrorLog.

Lemma pushCapped_lastn (l : list Entry) (e : Entry) :
  (List.length l <= 50)%nat -> pushCapped l e = lastn 50 (l ++ [e]).
Proof.
  intros Hl. unfold pushCapped, lastn. rewrite length_app. cbn [List.length].
  destruct (Nat.ltb_spec 50 (List.length l + 1)) as [H|H].
  - replace (List.length l + 1 - 50)%nat with 1%nat by lia.
    destruct (l ++ [e]); reflexivity.
  - replace (List.length l + 1 - 50)%nat with 0%nat by lia. reflexivity.
Qed.

Lemma lastn_length {A : Type} (n : nat) (l : list A) :
  List.length (lastn n l) = Nat.min n (List.length l).
Proof. unfold lastn. rewrite length_skipn. lia. Qed.

Lemma lastn_app_lastn {A : Type} (n : nat) (l l' : list A) :
  lastn n (lastn n l ++ l') = lastn n (l ++ l').
Proof.
  unfold lastn. rewrite !length_app, length_skipn, !skipn_app, skipn_skipn.
  rewrite length_skipn. f_equal; f_equal; lia.
Qed.

Lemma logErrors_Log (calls : list (string * list Arg)) :
  forall l : list Entry,
    (List.length l <= 50)%nat ->
    logErrors calls (Log l)
    = Log (lastn 50 (l ++ map (fun c => entryOf (fst c) (snd c)) calls)).
Proof.
  induction calls as [|[now args] calls IH]; intros l Hl.
  - cbn. rewrite app_nil_r. unfold lastn.
    replace (List.length l - 50)%nat with 0%nat by lia. reflexivity.
  - change (logErrors ((now, args) :: calls) (Log l))
      with (logErrors calls (Log (pushCapped l (entryOf now args)))).
    rewrite pushCapped_lastn by exact Hl.
    rewrite IH by (rewrite lastn_length; lia).
    rewrite lastn_app_lastn, <- app_assoc. reflexivity.
Qed.

(** Starting from a stored log of at most 50 entries, or from no item,
    after any sequence of errors the log that can be read back is the last
    50 entries of the old log followed by the new ones in order: never
    more than 50 entries, the oldest evicted first. *)
Theorem error_log_keeps_last_50
        (calls : list (string * list Arg)) (l : list Entry) :
  (List.length l <= 50)%nat ->
  let new := map (fun c => entryOf (fst c) (snd c)) calls in
  logErrors calls (Log l) = Log (lastn 50 (l ++ new)) /\
  (List.length (lastn 50 (l ++ new)) <= 50)%nat /\
  viewBrainwaveErrorLog (logErrors calls (Log l)) = Entries (lastn 50 (l ++ new)) /\
  viewBrainwaveErrorLog (logErrors calls NoItem) = Entries (lastn 50 new).
Proof.
  intros Hl new. subst new. rewrite logErrors_Log by exact Hl.
  split; [reflexivity|]. split; [rewrite lastn_length; lia|].
  split; [reflexivity|].
  destruct calls as [|[now args] calls]; [reflexivity|].
  change (logErrors ((now, args) :: calls) NoItem)
    with (logErrors calls (Log (pushCapped [] (entryOf now args)))).
  rewrite pushCapped_lastn by (cbn; lia).
  rewrite logErrors_Log by (rewrite lastn_length; cbn; lia).
  rewrite lastn_app_lastn. reflexivity.
Qed.

Lemma error_log_keeps_last_50_witness :
  viewBrainwaveErrorLog
    (logErrors [("t1"%string, [Other "a"%string]);
                ("t2"%string, [ErrorObject "E" "m" "s"])] (Log []))
  = Entries [mkEntry "t1" [TextItem "a"]; mkEntry "t2" [ErrorItem "E" "m" "s"]].
Proof.
  exact (proj1 (proj2 (proj2
           (error_log_keeps_last_50
              [("t1"%string, [Other "a"%string]);
               ("t2"%string, [ErrorObject "E" "m" "s"])] []
              (Nat.le_0_l 50))))).
Defined.

(** Once the stored item is unreadable (not JSON, or JSON that is not an
    array) no error is logged any more: the wrapper never rewrites it. *)
Theorem unreadable_log_is_never_repaired
        (calls : list (string * list Arg * bool)) :
  fold_left (fun st c => logError (fst (fst c)) (snd (fst c)) (snd c) st)
            calls NotJson = NotJson /\
  fold_left (fun st c => logError (fst (fst c)) (snd (fst c)) (snd c) st)
            calls NotArray = NotArray.
Proof.
  induction calls as [|c calls [IH1 IH2]]; [split; reflexivity|].
  cbn [fold_left logError]. split; assumption.
Qed.

(** Only one entry is evicted per error: a stored log that is already
    longer than 50 entries keeps its length for ever. *)
Theorem oversized_log_never_shrinks
        (calls : list (string * list Arg)) (l : list Entry) :
  (50 < List.length l)%nat ->
  exists l' : list Entry,
    logErrors calls (Log l) = Log l' /\ List.length l' = List.length l.
Proof.
  revert l. induction calls as [|[now args] calls IH]; intros l Hl.
  - exists l. split; reflexivity.
  - change (logErrors ((now, args) :: calls) (Log l))
      with (logErrors calls (Log (pushCapped l (entryOf now args)))).
    assert (E : List.length (pushCapped l (entryOf now args)) = List.length l).
    { unfold pushCapped. rewrite length_app. cbn [List.length].
      destruct (Nat.ltb_spec 50 (List.length l + 1)); [|lia].
      destruct l; cbn in *; [lia|]. rewrite length_app. cbn. lia. }
    destruct (IH _ ltac:(rewrite E; exact Hl)) as (l' & E1 & E2).
    exists l'. split; [exact E1 | congruence].
Qed.

Lemma oversized_log_never_shrinks_witness :
  exists l' : list Entry,
    logErrors [("t"%string, [])] (Log (repeat (mkEntry "" []) 51)) = Log l' /\
    List.length l' = 51%nat.
Proof.
  exact (oversized_log_never_shrinks
           [("t"%string, [])] (repeat (mkEntry "" []) 51)
           (Nat.lt_succ_diag_r 50)).
Defined.

End ErrorLogFacts.

(** ** EEG chart *)

Section EEGVisualizerFacts.
Import EEGVisualizer.

Lemma slice_last (w : Z) (d : list Q) :
  (0 < w)%Z ->
  JSLib.slice (- w) d = skipn (List.length d - Z.to_nat w) d.
Proof.
  intros Hw. unfold JSLib.slice.
  destruct (Z.ltb_spec (- w) 0) as [_|H]; [|lia].
  f_equal. lia.
Qed.

Lemma mapi_length {A B : Type} (f : A -> nat -> B) (l : list A) :
  List.length (JSLib.mapi f l) = List.length l.
Proof.
  unfold JSLib.mapi.
  rewrite length_map, length_combine, length_seq. lia.
Qed.

Lemma combine_seq_nth {A : Type} (l : list A) :
  forall (k i : nat) (a : A),
    nth_error l i = Some a ->
    nth_error (combine (seq k (List.length l)) l) i = Some ((k + i)%nat, a).
Proof.
  induction l as [|x l IH]; intros k i a H; [destruct i; discriminate|].
  destruct i as [|i]; cbn in *.
  - injection H as ->. rewrite Nat.add_0_r. reflexivity.
  - rewrite (IH (S k) i a H). f_equal. f_equal. lia.
Qed.

Lemma mapi_nth {A B : Type} (f : A -> nat -> B) (l : list A) (i : nat) (a : A) :
  nth_error l i = Some a ->
  nth_error (JSLib.mapi f l) i = Some (f a i).
Proof.
  intros H. unfold JSLib.mapi.
  rewrite nth_error_map, (combine_seq_nth l 0 i a H). reflexivity.
Qed.

(** Every channel gets one dataset, labelled with its name.  For a window
    of at least one point the dataset holds the last [windowSize] points of
    the channel (all of them when there are fewer) and the chart has
    [windowSize] labels; for a window of 0 the chart has no label but the
    dataset holds every point of the channel, because [slice(-0)] is
    [slice(0)]. *)
Theorem chart_shows_last_points
        (channels : list EEGChannel) (windowSize : Z) (i : nat) (c : EEGChannel) :
  nth_error channels i = Some c ->
  exists ds : Dataset,
    nth_error (datasetsOf channels windowSize) i = Some ds /\
    label ds = name c /\
    List.length (labelsOf windowSize) = Z.to_nat windowSize /\
    ((0 < windowSize)%Z ->
     points ds = skipn (List.length (data c) - Z.to_nat windowSize) (data c) /\
     List.length (points ds)
     = Nat.min (Z.to_nat windowSize) (List.length (data c))) /\
    (windowSize = 0%Z -> labelsOf windowSize = [] /\ points ds = data c).
Proof.
  intros H. eexists. split; [unfold datasetsOf; apply mapi_nth, H|].
  cbn [label points]. split; [reflexivity|].
  split; [unfold labelsOf; rewrite length_map, length_seq; reflexivity|].
  split.
  - intros Hw. rewrite slice_last by exact Hw.
    split; [reflexivity|]. rewrite length_skipn. lia.
  - intros ->. split; [reflexivity|].
    unfold JSLib.slice. cbn [Z.opp Z.ltb Z.compare].
    rewrite Z.min_l by lia. reflexivity.
Qed.

Lemma chart_shows_last_points_witness :
  exists ds : Dataset,
    nth_error (datasetsOf [mkChannel "F3" [1; 2; 3; 4; 5]] 2) 0 = Some ds /\
    points ds = [4; 5].
Proof.
  destruct (chart_shows_last_points
              [mkChannel "F3" [1; 2; 3; 4; 5]] 2 0
              (mkChannel "F3" [1; 2; 3; 4; 5]) eq_refl)
    as (ds & Hn & _ & _ & Hw & _).
  exists ds. split; [exact Hn|]. exact (proj1 (Hw eq_refl)).
Defined.

Lemma inject_Z_pos (z : Z) : (0 < z)%Z -> (0 < inject_Z z)%Q.
Proof. intros H. change 0%Q with (inject_Z 0). rewrite <- Zlt_Qlt. exact H. Qed.

Lemma inject_Z_nonneg (z : Z) : (0 <= z)%Z -> (0 <= inject_Z z)%Q.
Proof. intros H. change 0%Q with (inject_Z 0). rewrite <- Zle_Qle. exact H. Qed.

Lemma inject_Z_lt (a b : Z) : (a < b)%Z -> (inject_Z a < inject_Z b)%Q.
Proof. intros H. rewrite <- Zlt_Qlt. exact H. Qed.

(** Dividing by a positive number keeps a strict order. *)
Lemma Qdiv_lt_mono (a b c : Q) : (0 < c)%Q -> (a < b)%Q -> (a / c < b / c)%Q.
Proof.
  intros Hc Hab. apply Qlt_shift_div_l; [exact Hc|].
  unfold Qdiv. rewrite <- Qmult_assoc, (Qmult_comm (/ c)), Qmult_inv_r; lra.
Qed.

(** The hues of the channels are pairwise different and lie in [0, 360):
    they grow with the index of the channel. *)
Theorem channel_hues_distinct (count i j : nat) :
  (i < j)%nat -> (j < count)%nat ->
  (0 <= hueOf i count)%Q /\ (hueOf i count < hueOf j count)%Q /\
  (hueOf j count < 360)%Q.
Proof.
  intros Hij Hjc. unfold hueOf.
  assert (Hc : (0 < inject_Z (Z.of_nat count))%Q) by (apply inject_Z_pos; lia).
  assert (Hi : (0 <= inject_Z (Z.of_nat i * 360))%Q)
    by (apply inject_Z_nonneg; lia).
  assert (Hlt : (inject_Z (Z.of_nat i * 360) < inject_Z (Z.of_nat j * 360))%Q)
    by (apply inject_Z_lt; lia).
  assert (Hj : (inject_Z (Z.of_nat j * 360) < 360 * inject_Z (Z.of_nat count))%Q).
  { change 360%Q with (inject_Z 360). rewrite <- inject_Z_mult.
    apply inject_Z_lt. lia. }
  split; [|split].
  - apply Qle_shift_div_l; [exact Hc|]. lra.
  - apply Qdiv_lt_mono; assumption.
  - apply Qlt_shift_div_r; [exact Hc | exact Hj].
Qed.

Lemma channel_hues_distinct_witness :
  (0 <= hueOf 1 6)%Q /\ (hueOf 1 6 < hueOf 2 6)%Q /\ (hueOf 2 6 < 360)%Q.
Proof.
  apply (channel_hues_distinct 6 1 2); repeat constructor.
Defined.

End EEGVisualizerFacts.

(** ** Strings *)

Section JSLibFacts.
Import JSLib.

Lemma split_nonempty (sep : ascii) (s : string) : split sep s <> [].
Proof.
  destruct s as [|c s]; cbn; [discriminate|].
  destruct (Ascii.eqb c sep); [discriminate|].
  destruct (split sep s); discriminate.
Qed.

(** A separator-free prefix stays glued to the first piece. *)
Lemma split_app (sep : ascii) (a b : string) :
  contains sep a = false ->
  split sep (a ++ b)
  = (a ++ hd EmptyString (split sep b))%string :: tl (split sep b).
Proof.
  induction a as [|c a IH]; intros H.
  - cbn [append]. pose proof (split_nonempty sep b).
    destruct (split sep b); [congruence | reflexivity].
  - cbn in H. apply orb_false_iff in H as [Hc Ha].
    cbn [append split]. rewrite Hc, (IH Ha). reflexivity.
Qed.

Lemma split_sep (sep : ascii) (b : string) :
  split sep (String sep b) = EmptyString :: split sep b.
Proof. cbn [split]. rewrite Ascii.eqb_refl. reflexivity. Qed.

Lemma append_empty (s : string) : (s ++ "")%string = s.
Proof. induction s as [|c s IH]; cbn; [|rewrite IH]; reflexivity. Qed.

(** As many pieces as separators, plus one. *)
Lemma split_length (sep : ascii) (s : string) :
  List.length (split sep s) = S (occurrences sep s).
Proof.
  induction s as [|c s IH]; [reflexivity|].
  cbn [split occurrences]. destruct (Ascii.eqb c sep).
  - cbn [List.length]. rewrite IH. reflexivity.
  - pose proof (split_nonempty sep s).
    destruct (split sep s); [congruence|]. cbn in *. lia.
Qed.

End JSLibFacts.

(** ** Timestamp of the debug log *)

Section DebugHelperFacts.
Import DebugHelper.

(** From a string of the shape [date T time . rest], with no 'T' in the
    date and neither 'T' nor '.' in the time (the shape of every
    [toISOString()]), [logWithTimestamp] prints exactly the time. *)
Theorem timestamp_is_time_of_day (date time rest : string) :
  JSLib.contains "T" date = false ->
  JSLib.contains "T" time = false ->
  JSLib.contains "." time = false ->
  timestampOf (date ++ "T" ++ time ++ "." ++ rest) = Some time.
Proof.
  intros Hd Ht Hp. unfold timestampOf.
  rewrite (split_app "T" date _ Hd).
  change ("T" ++ time ++ "." ++ rest)%string
    with (String "T" (time ++ "." ++ rest)).
  rewrite split_sep. cbn [hd tl nth_error].
  rewrite (split_app "T" time _ Ht).
  pose proof (split_nonempty "T" ("." ++ rest)) as Hne.
  change ("." ++ rest)%string with (String "." rest) in *.
  cbn [JSLib.split] in *. change (Ascii.eqb "." "T") with false in *.
  cbn iota in *.
  destruct (JSLib.split "T" rest) as [|h t]; cbn [hd];
    rewrite (split_app "." time _ Hp), split_sep; cbn [hd];
    rewrite append_empty; reflexivity.
Qed.

Lemma timestamp_is_time_of_day_witness :
  timestampOf "2024-01-02T03:04:05.678Z" = Some "03:04:05"%string.
Proof.
  exact (timestamp_is_time_of_day "2024-01-02" "03:04:05" "678Z"
                                  eq_refl eq_refl eq_refl).
Defined.

End DebugHelperFacts.

(** ** Frontend simulator *)

Section EEGSimulatorFacts.
Import EEGSimulator.
Variable sin : Q -> Q.

Lemma getEEGData_state (env : Env) (s : State) :
  connected s = true -> snd (getEEGData sin env s) = advance env s.
Proof. intros Hc. unfold getEEGData. rewrite Hc. reflexivity. Qed.

Lemma advance_timer (env : Env) (s : State) (k : Z) :
  stateTimer s = (100 * k)%Z -> (0 <= k < 50)%Z ->
  let s' := advance env s in
  stateTimer s' = (100 * ((k + 1) mod 50))%Z /\
  connected s' = connected s /\ channels s' = channels s /\
  ((k < 49)%Z -> currentState s' = currentState s) /\
  (k = 49%Z -> currentState s' = pickState (pick env)).
Proof.
  intros Ht Hk. unfold advance, stateInterval. rewrite Ht.
  destruct (Z.leb_spec 5000 (100 * k + 100)) as [H|H];
    cbn [stateTimer connected channels currentState].
  - assert (k = 49%Z) by lia. subst k. repeat split; auto. lia.
  - assert (k < 49)%Z by lia.
    rewrite Z.mod_small by lia. repeat split; auto; lia.
Qed.

Lemma ticks_timer (envs : list Env) :
  forall (s : State) (k : Z),
    connected s = true ->
    stateTimer s = (100 * k)%Z -> (0 <= k < 50)%Z ->
    let s' := ticks sin envs s in
    stateTimer s' = (100 * ((k + Z.of_nat (List.length envs)) mod 50))%Z /\
    connected s' = true /\ channels s' = channels s /\
    ((k + Z.of_nat (List.length envs) < 50)%Z ->
     currentState s' = currentState s).
Proof.
  induction envs as [|env envs IH]; intros s k Hc Ht Hk.
  - cbn. rewrite Z.add_0_r, Z.mod_small by lia. auto.
  - change (ticks sin (env :: envs) s)
      with (ticks sin envs (snd (getEEGData sin env s))).
    rewrite getEEGData_state by exact Hc.
    destruct (advance_timer env s k Ht Hk) as (T & C & Ch & Same & _).
    cbn zeta in *.
    assert (Hm : (0 <= (k + 1) mod 50 < 50)%Z) by (apply Z.mod_pos_bound; lia).
    destruct (IH (advance env s) ((k + 1) mod 50)%Z
                 ltac:(congruence) T Hm) as (T' & C' & Ch' & Same').
    cbn zeta in *. cbn [List.length]. rewrite Nat2Z.inj_succ.
    split; [|split; [exact C'|split; [congruence|]]].
    + rewrite T'. f_equal.
      rewrite Zplus_mod_idemp_l. f_equal. lia.
    + intros Hlt. rewrite Same', Same; try reflexivity; try lia.
      rewrite Z.mod_small by lia. lia.
Qed.

(** The simulated mental state is held for 50 calls: while connected and
    starting from a timer of 0, after [n] calls of [getEEGData] the timer
    is [100 (n mod 50)], the state is unchanged during the first 49 calls,
    and the 50th call draws a new one and restarts the timer. *)
Theorem simulator_state_changes_on_50th_call
        (envs : list Env) (last : Env) (s : State) :
  connected s = true ->
  stateTimer s = 0%Z ->
  let s' := ticks sin envs s in
  stateTimer s' = (100 * (Z.of_nat (List.length envs) mod 50))%Z /\
  ((List.length envs < 50)%nat -> currentState s' = currentState s) /\
  (List.length envs = 49%nat ->
   currentState (snd (getEEGData sin last s')) = pickState (pick last) /\
   stateTimer (snd (getEEGData sin last s')) = 0%Z).
Proof.
  intros Hc Ht s'.
  destruct (ticks_timer envs s 0 Hc Ht ltac:(lia)) as (T & C & _ & Same).
  fold s' in T, C, Same. cbn [Z.add] in T, Same.
  split; [exact T|]. split; [intros H; apply Same; lia|].
  intros H49. rewrite getEEGData_state by exact C.
  rewrite H49 in T. change (Z.of_nat 49 mod 50)%Z with 49%Z in T.
  destruct (advance_timer last s' 49 T ltac:(lia)) as (T2 & _ & _ & _ & P).
  split; [apply P; reflexivity | exact T2].
Qed.

Lemma pickState_listed (u : Q) :
  JSLib.unit_draw u -> In (pickState u) MENTAL_STATES.
Proof.
  intros [H0 H1]. unfold pickState.
  pose proof (Qfloor_le (u * 4)) as Hle.
  pose proof (Qlt_floor (u * 4)) as Hlt.
  assert (Hlo : (0 <= Qfloor (u * 4))%Z).
  { rewrite <- (Qfloor_Z 0). apply Qfloor_resp_le.
    change (inject_Z 0) with 0%Q. lra. }
  assert (Hhi : (Qfloor (u * 4) < 4)%Z).
  { rewrite Zlt_Qlt. change (inject_Z 4) with 4%Q. lra. }
  assert (E : exists n, Z.to_nat (Qfloor (u * 4)) = n /\ (n < 4)%nat)
    by (eexists; split; [reflexivity | lia]).
  destruct E as (n & -> & Hn).
  destruct n as [|[|[|[|n]]]]; cbn; auto; lia.
Qed.

Lemma channelValue_range (env : Env) (st channel : string) (index : nat) :
  JSLib.sin_ok sin -> env_ok env ->
  (- 3 <= channelValue sin env st channel index /\
   channelValue sin env st channel index < 30)%Q.
Proof.
  intros Hsin (_ & _ & Hb & He). unfold channelValue.
  destruct (Hb index) as [b0 b1]. destruct (He index) as [e0 e1].
  pose proof (Hsin (now env / 100)) as [s1 s1'].
  pose proof (Hsin (now env / 200)) as [s2 s2'].
  pose proof (Hsin (now env / 300 + inject_Z (Z.of_nat index))) as [s3 s3'].
  destruct (String.eqb st "Focused");
    [destruct (String.eqb channel "AF3" || String.eqb channel "AF4")|
     destruct (String.eqb st "Relaxed");
     [destruct (String.eqb channel "PO3" || String.eqb channel "PO4")|
      destruct (String.eqb st "Distracted")]];
    split; lra.
Qed.

Lemma Forall_mapi {A B : Type} (P : B -> Prop) (f : A -> nat -> B) (l : list A) :
  (forall a i, P (f a i)) -> Forall P (JSLib.mapi f l).
Proof.
  intros H. unfold JSLib.mapi. apply Forall_map, Forall_forall.
  intros [i a] _. apply H.
Qed.

(** While connected, every call of [getEEGData] returns one value per
    channel, each in [-3, 30), with the channel names as labels, and
    [getMentalState] reports one of the four listed states (once one was
    drawn) with a confidence in [0.7, 1); this for every time, every draw
    of [Math.random] in [0, 1) and sine values in [-1, 1]. *)
Theorem simulator_values_bounded (env : Env) (s : State) :
  JSLib.sin_ok sin -> env_ok env -> connected s = true ->
  exists (eeg : EEGData) (s' : State),
    getEEGData sin env s = (Some eeg, s') /\
    List.length (values eeg) = List.length (channels s) /\
    labels eeg = channels s /\
    Forall (fun v => - 3 <= v /\ v < 30)%Q (values eeg) /\
    (exists m, getMentalState sin env s = (Some m, s') /\
               (0.7 <= confidence m /\ confidence m < 1)%Q /\
               state m = currentState s' /\
               (In (currentState s) MENTAL_STATES ->
                In (state m) MENTAL_STATES)).
Proof.
  intros Hsin Henv Hc. unfold getMentalState, getEEGData. rewrite Hc.
  cbn [negb]. eexists. eexists. split; [reflexivity|].
  cbn [values labels].
  assert (Hch : channels (advance env s) = channels s)
    by (unfold advance; destruct (_ <=? _)%Z; reflexivity).
  split; [rewrite mapi_length, Hch; reflexivity|].
  split; [exact Hch|].
  split; [apply Forall_mapi; intros a i;
          apply channelValue_range; assumption|].
  eexists. split; [reflexivity|]. cbn [confidence state].
  destruct Henv as (Hp & [c0 c1] & _).
  split; [split; lra|]. split; [reflexivity|].
  intros Hin. unfold advance. destruct (_ <=? _)%Z; cbn [currentState];
    [apply pickState_listed, Hp | exact Hin].
Qed.

(** A disconnected simulator is inert: both getters return null and leave
    the timer and the state alone. *)
Lemma simulator_disconnected (env : Env) (s : State) :
  connected s = false ->
  getEEGData sin env s = (None, s) /\ getMentalState sin env s = (None, s).
Proof.
  intros Hc. unfold getMentalState, getEEGData. rewrite Hc. split; reflexivity.
Qed.

Variable trim : string -> string.

(** [loadCSV] appends: the channels after a load are the channels before
    it followed by the header columns other than 'timestamp' and 'label',
    so the six default channels stay and loading a file twice lists its
    columns twice; the number of samples it reports is the number of line
    feeds in the text. *)
Theorem loadCSV_appends_channels (csv : string) (s : State) :
  let once := loadCSV trim (ReadResult (Some csv)) s in
  let twice := loadCSV trim (ReadResult (Some csv)) (snd once) in
  channels (snd once) = (channels s ++ headerChannels trim csv)%list /\
  fst once
  = Loaded (Z.of_nat (JSLib.occurrences "010" csv))
           (List.length (channels s) + List.length (headerChannels trim csv)) /\
  channels (snd twice)
  = (channels s ++ headerChannels trim csv ++ headerChannels trim csv)%list /\
  stateTimer (snd once) = stateTimer s /\
  connected (snd once) = connected s.
Proof.
  cbn [loadCSV fst snd channels stateTimer connected].
  rewrite split_length, length_app, <- app_assoc.
  repeat split. f_equal. lia.
Qed.

End EEGSimulatorFacts.

Lemma simulator_state_changes_on_50th_call_witness :
  let e := EEGSimulator.mkEnv 0 (1 # 2) (fun _ => 0) (fun _ => 0) 0 in
  let s' := EEGSimulator.ticks (fun _ => 0) (repeat e 49)
              (EEGSimulator.connect EEGSimulator.initial) in
  EEGSimulator.stateTimer s' = 4900%Z /\
  EEGSimulator.currentState (snd (EEGSimulator.getEEGData (fun _ => 0) e s'))
  = "Distracted"%string.
Proof.
  destruct (simulator_state_changes_on_50th_call
              (fun _ => 0)
              (repeat (EEGSimulator.mkEnv 0 (1 # 2) (fun _ => 0) (fun _ => 0) 0) 49)
              (EEGSimulator.mkEnv 0 (1 # 2) (fun _ => 0) (fun _ => 0) 0)
              (EEGSimulator.connect EEGSimulator.initial) eq_refl eq_refl)
    as (T & _ & P).
  split; [exact T|]. exact (proj1 (P eq_refl)).
Defined.


Lemma simulator_values_bounded_witness :
  exists (eeg : EEGSimulator.EEGData) (s' : EEGSimulator.State),
    EEGSimulator.getEEGData (fun _ => 0)
      (EEGSimulator.mkEnv 0 (1 # 2) (fun _ => 1 # 2) (fun _ => 0) 0)
      (EEGSimulator.connect EEGSimulator.initial) = (Some eeg, s') /\
    List.length (EEGSimulator.values eeg) = 6%nat.
Proof.
  destruct (simulator_values_bounded
              (fun _ => 0)
              (EEGSimulator.mkEnv 0 (1 # 2) (fun _ => 1 # 2) (fun _ => 0) 0)
              (EEGSimulator.connect EEGSimulator.initial))
    as (eeg & s' & E & L & _).
  - intros x. split; discriminate.
  - repeat split; try intros i; try discriminate; reflexivity.
  - reflexivity.
  - exists eeg, s'. split; [exact E | exact L].
Defined.

(** ** The waves of the graph *)

Section WaveFacts.
Import Wave.
Variable sin : Q -> Q.

(** Every point of both waves lies inside the 500 x 180 canvas, at least
    22 pixels below its top edge, for every scalar in [0, 1], every time
    and every sine value in [-1, 1]; the points go from left to right. *)
Theorem waves_stay_inside_canvas (now value : Q) (i count : nat) :
  JSLib.sin_ok sin ->
  (0 <= value /\ value <= 1)%Q ->
  (i < count)%nat ->
  (22 <= yLeft sin now i value /\ yLeft sin now i value <= height)%Q /\
  (22 <= yRight sin now i value /\ yRight sin now i value <= height)%Q /\
  (0 <= x i count /\ x i count < width)%Q /\
  (x i count < x (S i) count)%Q.
Proof.
  intros Hsin [V0 V1] Hi. unfold yLeft, yRight, height, width.
  pose proof (Hsin (now / 200 + inject_Z (Z.of_nat i) * 0.3)) as [a0 a1].
  pose proof (Hsin (now / 180 + inject_Z (Z.of_nat i) * 0.2)) as [b0 b1].
  split; [split; nra|]. split; [split; nra|].
  unfold x, width.
  assert (Hc : (0 < inject_Z (Z.of_nat count))%Q) by (apply inject_Z_pos; lia).
  assert (H0 : (0 <= inject_Z (Z.of_nat i))%Q) by (apply inject_Z_nonneg; lia).
  assert (H1 : (inject_Z (Z.of_nat i) < inject_Z (Z.of_nat count))%Q)
    by (apply inject_Z_lt; lia).
  assert (H2 : (inject_Z (Z.of_nat i) < inject_Z (Z.of_nat (S i)))%Q)
    by (apply inject_Z_lt; lia).
  assert (Q0 : (0 <= inject_Z (Z.of_nat i) / inject_Z (Z.of_nat count))%Q)
    by (apply Qle_shift_div_l; [exact Hc | lra]).
  assert (Q1 : (inject_Z (Z.of_nat i) / inject_Z (Z.of_nat count) < 1)%Q)
    by (apply Qlt_shift_div_r; [exact Hc | lra]).
  pose proof (Qdiv_lt_mono _ _ _ Hc H2). repeat split; lra.
Qed.

End WaveFacts.

Lemma waves_stay_inside_canvas_witness :
  (22 <= Wave.yLeft (fun _ => 1) 0 3 (1 # 2))%Q /\
  (Wave.x 3 50 < Wave.x 4 50)%Q.
Proof.
  destruct (waves_stay_inside_canvas (fun _ => 1) 0 (1 # 2) 3 50)
    as ((L & _) & _ & _ & X).
  - intros x. split; discriminate.
  - split; discriminate.
  - repeat constructor.
  - split; [exact L | exact X].
Defined.

(** ** Mental state display *)

Section MentalStateDisplayFacts.
Import MentalStateDisplay.
Variable toLowerCase : string -> string.

(** The circle always shows exactly one icon, the arrow of the title icon
    when there is one.  The headline compares the state as it is, the icons
    compare it in lower case: a state that only lower-cases to 'left' gets
    the left arrows but the headline 'Thinking: ' followed by the state. *)
Theorem display_icons_agree_headline_is_case_sensitive (state : string) :
  (exists icon, circle toLowerCase state = [icon] /\
                (ThoughtIcon toLowerCase state = Brain /\ icon = Activity \/
                 ThoughtIcon toLowerCase state = icon)) /\
  (toLowerCase state = "left"%string ->
   state <> "left"%string -> state <> "right"%string ->
   ThoughtIcon toLowerCase state = ArrowLeft /\
   circle toLowerCase state = [ArrowLeft] /\
   headline state = ("Thinking: " ++ state)%string).
Proof.
  unfold circle, ThoughtIcon, headline. split.
  - destruct (String.eqb_spec (toLowerCase state) "left") as [E|N].
    + rewrite E. cbn. eauto.
    + destruct (String.eqb (toLowerCase state) "right"); cbn; eauto.
  - intros E N N'. rewrite E. cbn.
    destruct (String.eqb_spec state "left") as [E'|_]; [congruence|].
    destruct (String.eqb_spec state "right") as [E'|_]; [congruence|auto].
Qed.

End MentalStateDisplayFacts.
